(** * NFSv3 / Sun RPC request definitions: a shallow embedding

    The repository describes Sun RPC (RFC 5531) calls carrying NFSv3
    (RFC 1813) arguments as trees of boofuzz primitives.  This file embeds
    - the Python built-ins the builders use ([len], [bytes * int],
      [str.encode("utf-8")]),
    - the boofuzz primitives the builders instantiate ([DWord], [QWord],
      [Bytes], [Static], [Size], [Block], [Request]) together with their
      rendering, which lives in the boofuzz library and not in this
      repository,
    - [request_definitions/sunrpc.py] and [request_definitions/nfs3.py],
    and proves the properties stated for them. *)

From Stdlib Require Import ZArith List String Ascii Bool Lia.
From coqutil Require Import Byte Word.LittleEndianList.
From coqutil Require Import Map.Interface Map.Properties Map.SortedListString.
Import ListNotations.
Local Open Scope Z_scope.

#[local] Existing Instance SortedListString.ok.

(* ===================================================================== *)
(** ** Errors and the error monad *)
(* ===================================================================== *)

Module Result.

(** The error taxonomy of the rendering engine.  [EncodingError] is also
    what Python's [str.encode] raises ([UnicodeEncodeError]). *)
Inductive error : Type :=
| ValueOutOfRange (field : string)
| EncodingError
| UnknownSizeTarget (target : string).

Inductive result (A : Type) : Type :=
| Ok (a : A)
| Err (e : error).
Arguments Ok {A} a.
Arguments Err {A} e.

Definition bind {A B : Type} (m : result A) (k : A -> result B) : result B :=
  match m with
  | Ok a => k a
  | Err e => Err e
  end.

Definition is_ok {A : Type} (m : result A) : bool :=
  match m with
  | Ok _ => true
  | Err _ => false
  end.

Module Notations.
Notation "x <- m ;; k" := (bind m (fun x => k))
  (at level 61, m at next level, right associativity).
Notation "' p <- m ;; k" := (bind m (fun x => match x with p => k end))
  (at level 61, p pattern, m at next level, right associativity).
End Notations.

End Result.

Import Result Result.Notations.

(* ===================================================================== *)
(** ** Python built-ins used by the builders *)
(* ===================================================================== *)

Module Py.

(** [bytes]: an immutable sequence of octets. *)
Definition bytes : Type := list byte.

(** [str]: a sequence of Unicode code points. *)
Definition str : Type := list Z.

(** A [str] literal made of ASCII characters. *)
Definition str_of_string (s : string) : str :=
  List.map (fun a => Z.of_N (N_of_ascii a)) (list_ascii_of_string s).

(** [len(x)] *)
Definition len {A : Type} (l : list A) : Z := Z.of_nat (List.length l).

(** [b * n] on bytes: [n] copies of [b], none when [n <= 0]. *)
Definition bytes_mul (b : bytes) (n : Z) : bytes :=
  List.concat (List.repeat b (Z.to_nat n)).

(** One code point in UTF-8.  Surrogates (and numbers that are no code
    point) cannot be encoded: Python raises. *)
Definition utf8_encode_char (c : Z) : result bytes :=
  if c <? 0 then Err EncodingError
  else if c <? 0x80 then Ok [byte.of_Z c]
  else if c <? 0x800 then
    Ok [byte.of_Z (Z.lor 0xC0 (Z.shiftr c 6));
        byte.of_Z (Z.lor 0x80 (Z.land c 0x3F))]
  else if (0xD800 <=? c) && (c <=? 0xDFFF) then Err EncodingError
  else if c <? 0x10000 then
    Ok [byte.of_Z (Z.lor 0xE0 (Z.shiftr c 12));
        byte.of_Z (Z.lor 0x80 (Z.land (Z.shiftr c 6) 0x3F));
        byte.of_Z (Z.lor 0x80 (Z.land c 0x3F))]
  else if c <? 0x110000 then
    Ok [byte.of_Z (Z.lor 0xF0 (Z.shiftr c 18));
        byte.of_Z (Z.lor 0x80 (Z.land (Z.shiftr c 12) 0x3F));
        byte.of_Z (Z.lor 0x80 (Z.land (Z.shiftr c 6) 0x3F));
        byte.of_Z (Z.lor 0x80 (Z.land c 0x3F))]
  else Err EncodingError.

(** [s.encode("utf-8")] *)
Fixpoint encode_utf8 (s : str) : result bytes :=
  match s with
  | [] => Ok []
  | c :: s' =>
      b <- utf8_encode_char c ;;
      bs <- encode_utf8 s' ;;
      Ok (b ++ bs)
  end.

End Py.

Import Py.

(* ===================================================================== *)
(** ** The boofuzz primitives *)
(* ===================================================================== *)

Module Boofuzz.

Inductive endianness : Type := BIG_ENDIAN | LITTLE_ENDIAN.

(** The primitives the builders instantiate, with the keyword arguments
    the source passes.  [fuzzable] is [None] where the source leaves the
    library's default; [math] is [None] where no transform is given. *)
#[local] Unset Elimination Schemes.
Inductive node : Type :=
| DWord (name : string) (default_value : Z) (endian : endianness)
        (fuzzable : option bool)
| QWord (name : string) (default_value : Z) (endian : endianness)
        (fuzzable : option bool)
| Bytes (name : string) (default_value : bytes) (size : Z)
        (fuzzable : option bool)
| Static (name : string) (default_value : bytes)
| Size (name : string) (block_name : string) (length : nat)
       (endian : endianness) (math : option (Z -> Z))
       (fuzzable : option bool)
| Block (name : string) (children : list node).
#[local] Set Elimination Schemes.

Record Request : Type := mkRequest {
  req_name : string;
  req_children : list node
}.

(** Big-endian bytes of an unsigned integer, most significant first. *)
Definition be_split (width : nat) (v : Z) : bytes :=
  List.rev (le_split width v).

(** Modelled from the spec: boofuzz's integer encoding is not part of
    this repository.  A numeric field is encoded at its declared width
    and byte order, and a value that the width cannot represent is
    rejected ([ValueOutOfRange]) instead of being truncated. *)
Definition encode_uint (field : string) (width : nat) (e : endianness)
    (v : Z) : result bytes :=
  if (0 <=? v) && (v <? 2 ^ (8 * Z.of_nat width)) then
    Ok (match e with
        | BIG_ENDIAN => be_split width v
        | LITTLE_ENDIAN => le_split width v
        end)
  else Err (ValueOutOfRange field).

(** The inverse reading of a big-endian unsigned integer. *)
Definition be_combine (bs : bytes) : Z := le_combine (List.rev bs).

Definition sizes : Type := SortedListString.map Z.

(** Modelled from the spec: boofuzz's renderer is not part of this
    repository.  Phase 1 of rendering serializes every container
    bottom-up, children in declaration order, and records
    (container name -> byte length).  A size field occupies its declared
    width; its value is not known yet.  A byte string is its value as
    given: [size] is the declared width, and the builders pass the length
    of the value for it. *)
Fixpoint serialize (n : node) (tbl : sizes) : result (bytes * sizes) :=
  match n with
  | DWord nm v e _ => b <- encode_uint nm 4 e v ;; Ok (b, tbl)
  | QWord nm v e _ => b <- encode_uint nm 8 e v ;; Ok (b, tbl)
  | Bytes _ v _ _ => Ok (v, tbl)
  | Static _ v => Ok (v, tbl)
  | Size _ _ w _ _ _ => Ok (List.repeat Byte.x00 w, tbl)
  | Block nm cs =>
      '(b, tbl') <-
        (fix serialize_children (cs : list node) (tbl : sizes)
           : result (bytes * sizes) :=
           match cs with
           | [] => Ok ([], tbl)
           | c :: cs' =>
               '(b1, tbl1) <- serialize c tbl ;;
               '(b2, tbl2) <- serialize_children cs' tbl1 ;;
               Ok (b1 ++ b2, tbl2)
           end) cs tbl ;;
      Ok (b, map.put tbl' nm (len b))
  end.

(** Phase 1 on the children of a container, left to right. *)
Fixpoint serialize_children (cs : list node) (tbl : sizes)
    : result (bytes * sizes) :=
  match cs with
  | [] => Ok ([], tbl)
  | c :: cs' =>
      '(b1, tbl1) <- serialize c tbl ;;
      '(b2, tbl2) <- serialize_children cs' tbl1 ;;
      Ok (b1 ++ b2, tbl2)
  end.

(** Modelled from the spec: a size field renders by looking up the byte
    length of its target container, applying the transform, and encoding
    the result at the declared width and byte order.  A target that is
    nowhere in the tree is [UnknownSizeTarget]. *)
Definition resolve_size (tbl : sizes) (nm target : string) (w : nat)
    (e : endianness) (math : option (Z -> Z)) : result bytes :=
  match map.get tbl target with
  | None => Err (UnknownSizeTarget target)
  | Some l =>
      encode_uint nm w e (match math with Some f => f l | None => l end)
  end.

(** Modelled from the spec: phase 2 of rendering resolves every size
    field against the completed table and concatenates the children of
    each container in declaration order. *)
Fixpoint resolve (tbl : sizes) (n : node) : result bytes :=
  match n with
  | DWord nm v e _ => encode_uint nm 4 e v
  | QWord nm v e _ => encode_uint nm 8 e v
  | Bytes _ v _ _ => Ok v
  | Static _ v => Ok v
  | Size nm target w e math _ => resolve_size tbl nm target w e math
  | Block _ cs =>
      (fix resolve_children (cs : list node) : result bytes :=
         match cs with
         | [] => Ok []
         | c :: cs' =>
             b1 <- resolve tbl c ;;
             b2 <- resolve_children cs' ;;
             Ok (b1 ++ b2)
         end) cs
  end.

(** Phase 2 on the children of a container, left to right. *)
Fixpoint resolve_children (tbl : sizes) (cs : list node) : result bytes :=
  match cs with
  | [] => Ok []
  | c :: cs' =>
      b1 <- resolve tbl c ;;
      b2 <- resolve_children tbl cs' ;;
      Ok (b1 ++ b2)
  end.

(** Rendering a sequence of top-level nodes: both phases. *)
Definition render_children (cs : list node) : result bytes :=
  '(_, tbl) <- serialize_children cs map.empty ;;
  resolve_children tbl cs.

(** Rendering a request, and rendering one container on its own. *)
Definition render (r : Request) : result bytes :=
  render_children (req_children r).

Definition render_node (n : node) : result bytes :=
  render_children [n].

End Boofuzz.

Import Boofuzz.

(* ===================================================================== *)
(** ** request_definitions/sunrpc.py *)
(* ===================================================================== *)

Module Sunrpc.

Definition MSG_TYPE_CALL : Z := 0.
Definition MSG_TYPE_REPLY : Z := 1.
Definition RPC_VERSION : Z := 2.

Definition PROG_PORTMAP : Z := 100000.
Definition PROG_NFS : Z := 100003.
Definition PROG_MOUNT : Z := 100005.

Definition AUTH_NONE : Z := 0.
Definition AUTH_SYS : Z := 1.
Definition AUTH_SHORT : Z := 2.
Definition AUTH_DES : Z := 3.
Definition RPCSEC_GSS : Z := 6.

Definition PORT_PORTMAP : Z := 111.
Definition PORT_NFS : Z := 2049.

(** [(4 - (length % 4)) % 4]; Python's [%] with a positive divisor is
    [Z.modulo]. *)
Definition xdr_pad_length (length : Z) : Z := (4 - (length mod 4)) mod 4.

Definition xdr_padded_bytes (data : bytes) : bytes :=
  let pad := xdr_pad_length (len data) in
  data ++ bytes_mul [Byte.x00] pad.

Definition tcp_record_mark (block_name : string) (name : string) : node :=
  Size name block_name 4 BIG_ENDIAN
       (Some (fun x => Z.lor 0x80000000 x)) (Some true).

Local Open Scope string_scope.

(** Returns the four children of an AUTH_NONE credential and verifier. *)
Definition auth_none (name_prefix : string) : list node :=
  [ DWord (name_prefix ++ "_cred_flavor") AUTH_NONE BIG_ENDIAN None;
    DWord (name_prefix ++ "_cred_length") 0 BIG_ENDIAN None;
    DWord (name_prefix ++ "_verf_flavor") AUTH_NONE BIG_ENDIAN None;
    DWord (name_prefix ++ "_verf_length") 0 BIG_ENDIAN None ].

Definition auth_none_default_name_prefix : string := "auth".

Definition auth_sys_block (name : string) (machine_name : str)
    (uid gid : Z) : result node :=
  name_bytes <- encode_utf8 machine_name ;;
  let name_padded_len := len name_bytes + xdr_pad_length (len name_bytes) in
  Ok (Block name
        [ DWord (name ++ "_cred_flavor") AUTH_SYS BIG_ENDIAN None;
          Size (name ++ "_cred_length") (name ++ "_cred_body") 4
               BIG_ENDIAN None None;
          Block (name ++ "_cred_body")
            [ DWord (name ++ "_stamp") 0 BIG_ENDIAN None;
              DWord (name ++ "_machine_len") (len name_bytes)
                    BIG_ENDIAN None;
              Static (name ++ "_machine") (xdr_padded_bytes name_bytes);
              DWord (name ++ "_uid") uid BIG_ENDIAN (Some true);
              DWord (name ++ "_gid") gid BIG_ENDIAN (Some true);
              DWord (name ++ "_aux_gid_count") 0 BIG_ENDIAN None ];
          DWord (name ++ "_verf_flavor") AUTH_NONE BIG_ENDIAN None;
          DWord (name ++ "_verf_length") 0 BIG_ENDIAN None ]).

(** Defaults of [auth_sys_block]'s keyword arguments. *)
Definition auth_sys_default_machine_name : str := str_of_string "fuzzer".
Definition auth_sys_default_uid : Z := 0.
Definition auth_sys_default_gid : Z := 0.

Definition rpc_call_request (name : string) (program version procedure : Z)
    (args_children : list node) (auth_type : string) (xid : Z)
    : result Request :=
  auth_children <-
    (if String.eqb auth_type "sys" then
       a <- auth_sys_block (name ++ "_auth") auth_sys_default_machine_name
              auth_sys_default_uid auth_sys_default_gid ;;
       Ok [a]
     else
       Ok (auth_none (name ++ "_auth"))) ;;
  Ok (mkRequest name
        [ tcp_record_mark (name ++ "_rpc_message") (name ++ "_record_mark");
          Block (name ++ "_rpc_message")
            ([ DWord (name ++ "_xid") xid BIG_ENDIAN (Some true);
               DWord (name ++ "_msg_type") MSG_TYPE_CALL BIG_ENDIAN
                     (Some true);
               DWord (name ++ "_rpc_version") RPC_VERSION BIG_ENDIAN
                     (Some true);
               DWord (name ++ "_program") program BIG_ENDIAN (Some true);
               DWord (name ++ "_version") version BIG_ENDIAN (Some true);
               DWord (name ++ "_procedure") procedure BIG_ENDIAN
                     (Some true) ]
             ++ auth_children
             ++ args_children) ]).

Definition rpc_call_block (name : string) (program version procedure : Z)
    (args_children : list node) (auth_type : string) (xid : Z)
    : result (list node) :=
  auth_children <-
    (if String.eqb auth_type "sys" then
       a <- auth_sys_block (name ++ "_auth") auth_sys_default_machine_name
              auth_sys_default_uid auth_sys_default_gid ;;
       Ok [a]
     else
       Ok (auth_none (name ++ "_auth"))) ;;
  Ok [ tcp_record_mark (name ++ "_rpc_message") (name ++ "_record_mark");
       Block (name ++ "_rpc_message")
            ([ DWord (name ++ "_xid") xid BIG_ENDIAN (Some true);
               DWord (name ++ "_msg_type") MSG_TYPE_CALL BIG_ENDIAN
                     (Some true);
               DWord (name ++ "_rpc_version") RPC_VERSION BIG_ENDIAN
                     (Some true);
               DWord (name ++ "_program") program BIG_ENDIAN (Some true);
               DWord (name ++ "_version") version BIG_ENDIAN (Some true);
               DWord (name ++ "_procedure") procedure BIG_ENDIAN
                     (Some true) ]
             ++ auth_children
             ++ args_children) ].

(** Defaults of the call builders' keyword arguments. *)
Definition default_args_children : list node := [].
Definition default_auth_type : string := "none".
Definition default_xid : Z := 0x00000001.

End Sunrpc.

Import Sunrpc.

(* ===================================================================== *)
(** ** request_definitions/nfs3.py *)
(* ===================================================================== *)

Module Nfs3.

Local Open Scope string_scope.

Definition NFS_V3 : Z := 3.

Definition NFSPROC3_NULL : Z := 0.
Definition NFSPROC3_GETATTR : Z := 1.
Definition NFSPROC3_SETATTR : Z := 2.
Definition NFSPROC3_LOOKUP : Z := 3.
Definition NFSPROC3_ACCESS : Z := 4.
Definition NFSPROC3_READLINK : Z := 5.
Definition NFSPROC3_READ : Z := 6.
Definition NFSPROC3_WRITE : Z := 7.
Definition NFSPROC3_CREATE : Z := 8.
Definition NFSPROC3_MKDIR : Z := 9.
Definition NFSPROC3_SYMLINK : Z := 10.
Definition NFSPROC3_MKNOD : Z := 11.
Definition NFSPROC3_REMOVE : Z := 12.
Definition NFSPROC3_RMDIR : Z := 13.
Definition NFSPROC3_RENAME : Z := 14.
Definition NFSPROC3_LINK : Z := 15.
Definition NFSPROC3_READDIR : Z := 16.
Definition NFSPROC3_READDIRPLUS : Z := 17.
Definition NFSPROC3_FSSTAT : Z := 18.
Definition NFSPROC3_FSINFO : Z := 19.
Definition NFSPROC3_PATHCONF : Z := 20.
Definition NFSPROC3_COMMIT : Z := 21.

Definition UNSTABLE : Z := 0.
Definition DATA_SYNC : Z := 1.
Definition FILE_SYNC : Z := 2.

Definition UNCHECKED : Z := 0.
Definition GUARDED : Z := 1.
Definition EXCLUSIVE : Z := 2.

(** Maximum file handle size.  No builder reads this constant. *)
Definition NFS3_FHSIZE : Z := 64.

(** [handle_data = None] selects the default pattern. *)
Definition fhandle3 (name : string) (handle_data : option bytes) : node :=
  let handle_data :=
    match handle_data with
    | None => bytes_mul [Byte.xde; Byte.xad; Byte.xbe; Byte.xef] 8
    | Some h => h
    end in
  let padded := xdr_padded_bytes handle_data in
  Block name
    [ DWord (name ++ "_length") (len handle_data) BIG_ENDIAN (Some true);
      Bytes (name ++ "_data") padded (len padded) (Some true) ].

Definition filename3 (name : string) (filename : str) : result node :=
  name_bytes <- encode_utf8 filename ;;
  let padded := xdr_padded_bytes name_bytes in
  Ok (Block name
        [ DWord (name ++ "_length") (len name_bytes) BIG_ENDIAN (Some true);
          Bytes (name ++ "_data") padded (len padded) (Some true) ]).

Definition dirop3 (name : string) (handle_data : option bytes)
    (filename : str) : result node :=
  let h := fhandle3 (name ++ "_dir_handle") handle_data in
  f <- filename3 (name ++ "_name") filename ;;
  Ok (Block name [ h; f ]).

Definition nfstime3 (name : string) (seconds nseconds : Z) : node :=
  Block name
    [ DWord (name ++ "_seconds") seconds BIG_ENDIAN (Some true);
      DWord (name ++ "_nseconds") nseconds BIG_ENDIAN (Some true) ].

Definition nfs3_null : result Request :=
  rpc_call_request "NFS3-NULL" PROG_NFS NFS_V3 NFSPROC3_NULL
    default_args_children default_auth_type default_xid.

Definition nfs3_getattr (handle_data : option bytes) : result Request :=
  rpc_call_request "NFS3-GETATTR" PROG_NFS NFS_V3 NFSPROC3_GETATTR
    [ fhandle3 "NFS3-GETATTR_fhandle" handle_data ]
    default_auth_type default_xid.

Definition nfs3_lookup (dir_handle : option bytes) (filename : str)
    : result Request :=
  what <- dirop3 "NFS3-LOOKUP_what" dir_handle filename ;;
  rpc_call_request "NFS3-LOOKUP" PROG_NFS NFS_V3 NFSPROC3_LOOKUP
    [ what ] default_auth_type default_xid.

Definition nfs3_access (handle_data : option bytes) (access_bits : Z)
    : result Request :=
  rpc_call_request "NFS3-ACCESS" PROG_NFS NFS_V3 NFSPROC3_ACCESS
    [ fhandle3 "NFS3-ACCESS_fhandle" handle_data;
      DWord "NFS3-ACCESS_access" access_bits BIG_ENDIAN (Some true) ]
    default_auth_type default_xid.

Definition nfs3_read (handle_data : option bytes) (offset count : Z)
    : result Request :=
  rpc_call_request "NFS3-READ" PROG_NFS NFS_V3 NFSPROC3_READ
    [ fhandle3 "NFS3-READ_fhandle" handle_data;
      QWord "NFS3-READ_offset" offset BIG_ENDIAN (Some true);
      DWord "NFS3-READ_count" count BIG_ENDIAN (Some true) ]
    default_auth_type default_xid.

Definition nfs3_write (handle_data : option bytes) (offset count stable : Z)
    (data : bytes) : result Request :=
  let data_padded := xdr_padded_bytes data in
  rpc_call_request "NFS3-WRITE" PROG_NFS NFS_V3 NFSPROC3_WRITE
    [ fhandle3 "NFS3-WRITE_fhandle" handle_data;
      QWord "NFS3-WRITE_offset" offset BIG_ENDIAN (Some true);
      DWord "NFS3-WRITE_count" count BIG_ENDIAN (Some true);
      DWord "NFS3-WRITE_stable" stable BIG_ENDIAN (Some true);
      DWord "NFS3-WRITE_data_length" (len data) BIG_ENDIAN (Some true);
      Bytes "NFS3-WRITE_data" data_padded (len data_padded) (Some true) ]
    default_auth_type default_xid.

(** [cookieverf = None] selects eight zero bytes. *)
Definition nfs3_readdir (handle_data : option bytes) (cookie : Z)
    (cookieverf : option bytes) (count : Z) : result Request :=
  let cookieverf :=
    match cookieverf with
    | None => bytes_mul [Byte.x00] 8
    | Some c => c
    end in
  rpc_call_request "NFS3-READDIR" PROG_NFS NFS_V3 NFSPROC3_READDIR
    [ fhandle3 "NFS3-READDIR_dir" handle_data;
      QWord "NFS3-READDIR_cookie" cookie BIG_ENDIAN (Some true);
      Bytes "NFS3-READDIR_cookieverf" cookieverf 8 (Some true);
      DWord "NFS3-READDIR_count" count BIG_ENDIAN (Some true) ]
    default_auth_type default_xid.

Definition nfs3_readdirplus (handle_data : option bytes) (cookie : Z)
    (cookieverf : option bytes) (dircount maxcount : Z) : result Request :=
  let cookieverf :=
    match cookieverf with
    | None => bytes_mul [Byte.x00] 8
    | Some c => c
    end in
  rpc_call_request "NFS3-READDIRPLUS" PROG_NFS NFS_V3 NFSPROC3_READDIRPLUS
    [ fhandle3 "NFS3-READDIRPLUS_dir" handle_data;
      QWord "NFS3-READDIRPLUS_cookie" cookie BIG_ENDIAN (Some true);
      Bytes "NFS3-READDIRPLUS_cookieverf" cookieverf 8 (Some true);
      DWord "NFS3-READDIRPLUS_dircount" dircount BIG_ENDIAN (Some true);
      DWord "NFS3-READDIRPLUS_maxcount" maxcount BIG_ENDIAN (Some true) ]
    default_auth_type default_xid.

Definition nfs3_fsstat (handle_data : option bytes) : result Request :=
  rpc_call_request "NFS3-FSSTAT" PROG_NFS NFS_V3 NFSPROC3_FSSTAT
    [ fhandle3 "NFS3-FSSTAT_fsroot" handle_data ]
    default_auth_type default_xid.

Definition nfs3_fsinfo (handle_data : option bytes) : result Request :=
  rpc_call_request "NFS3-FSINFO" PROG_NFS NFS_V3 NFSPROC3_FSINFO
    [ fhandle3 "NFS3-FSINFO_fsroot" handle_data ]
    default_auth_type default_xid.

Definition nfs3_pathconf (handle_data : option bytes) : result Request :=
  rpc_call_request "NFS3-PATHCONF" PROG_NFS NFS_V3 NFSPROC3_PATHCONF
    [ fhandle3 "NFS3-PATHCONF_object" handle_data ]
    default_auth_type default_xid.

Definition nfs3_commit (handle_data : option bytes) (offset count : Z)
    : result Request :=
  rpc_call_request "NFS3-COMMIT" PROG_NFS NFS_V3 NFSPROC3_COMMIT
    [ fhandle3 "NFS3-COMMIT_fhandle" handle_data;
      QWord "NFS3-COMMIT_offset" offset BIG_ENDIAN (Some true);
      DWord "NFS3-COMMIT_count" count BIG_ENDIAN (Some true) ]
    default_auth_type default_xid.

Definition nfs3_create (dir_handle : option bytes) (filename : str)
    (create_mode : Z) : result Request :=
  where_ <- dirop3 "NFS3-CREATE_where" dir_handle filename ;;
  rpc_call_request "NFS3-CREATE" PROG_NFS NFS_V3 NFSPROC3_CREATE
    [ where_;
      DWord "NFS3-CREATE_mode" create_mode BIG_ENDIAN (Some true);
      DWord "NFS3-CREATE_set_mode" 0 BIG_ENDIAN None;
      DWord "NFS3-CREATE_set_uid" 0 BIG_ENDIAN None;
      DWord "NFS3-CREATE_set_gid" 0 BIG_ENDIAN None;
      DWord "NFS3-CREATE_set_size" 0 BIG_ENDIAN None;
      DWord "NFS3-CREATE_set_atime" 0 BIG_ENDIAN None;
      DWord "NFS3-CREATE_set_mtime" 0 BIG_ENDIAN None ]
    default_auth_type default_xid.

Definition nfs3_remove (dir_handle : option bytes) (filename : str)
    : result Request :=
  object <- dirop3 "NFS3-REMOVE_object" dir_handle filename ;;
  rpc_call_request "NFS3-REMOVE" PROG_NFS NFS_V3 NFSPROC3_REMOVE
    [ object ] default_auth_type default_xid.

Definition nfs3_mkdir (dir_handle : option bytes) (dirname : str)
    : result Request :=
  where_ <- dirop3 "NFS3-MKDIR_where" dir_handle dirname ;;
  rpc_call_request "NFS3-MKDIR" PROG_NFS NFS_V3 NFSPROC3_MKDIR
    [ where_;
      DWord "NFS3-MKDIR_set_mode" 0 BIG_ENDIAN None;
      DWord "NFS3-MKDIR_set_uid" 0 BIG_ENDIAN None;
      DWord "NFS3-MKDIR_set_gid" 0 BIG_ENDIAN None;
      DWord "NFS3-MKDIR_set_size" 0 BIG_ENDIAN None;
      DWord "NFS3-MKDIR_set_atime" 0 BIG_ENDIAN None;
      DWord "NFS3-MKDIR_set_mtime" 0 BIG_ENDIAN None ]
    default_auth_type default_xid.

Definition nfs3_rmdir (dir_handle : option bytes) (dirname : str)
    : result Request :=
  object <- dirop3 "NFS3-RMDIR_object" dir_handle dirname ;;
  rpc_call_request "NFS3-RMDIR" PROG_NFS NFS_V3 NFSPROC3_RMDIR
    [ object ] default_auth_type default_xid.

Definition nfs3_rename (from_dir_handle : option bytes) (from_name : str)
    (to_dir_handle : option bytes) (to_name : str) : result Request :=
  from <- dirop3 "NFS3-RENAME_from" from_dir_handle from_name ;;
  to <- dirop3 "NFS3-RENAME_to" to_dir_handle to_name ;;
  rpc_call_request "NFS3-RENAME" PROG_NFS NFS_V3 NFSPROC3_RENAME
    [ from; to ] default_auth_type default_xid.

Definition nfs3_readlink (handle_data : option bytes) : result Request :=
  rpc_call_request "NFS3-READLINK" PROG_NFS NFS_V3 NFSPROC3_READLINK
    [ fhandle3 "NFS3-READLINK_symlink" handle_data ]
    default_auth_type default_xid.

(** Defaults of the builders' keyword arguments. *)
Definition default_filename : str := str_of_string "testfile".
Definition default_access_bits : Z := 0x3F.
Definition default_read_count : Z := 4096.
Definition default_dircount : Z := 4096.
Definition default_maxcount : Z := 8192.

(** Every builder called with its defaults, in the source's order. *)
Definition get_all_nfs3_requests : list (result Request) :=
  [ nfs3_null;
    nfs3_getattr None;
    nfs3_lookup None default_filename;
    nfs3_access None default_access_bits;
    nfs3_readlink None;
    nfs3_read None 0 default_read_count;
    nfs3_write None 0 0 FILE_SYNC [];
    nfs3_create None (str_of_string "newfile") UNCHECKED;
    nfs3_mkdir None (str_of_string "newdir");
    nfs3_remove None default_filename;
    nfs3_rmdir None (str_of_string "testdir");
    nfs3_rename None (str_of_string "oldname") None (str_of_string "newname");
    nfs3_readdir None 0 None default_read_count;
    nfs3_readdirplus None 0 None default_dircount default_maxcount;
    nfs3_fsstat None;
    nfs3_fsinfo None;
    nfs3_pathconf None;
    nfs3_commit None 0 0 ].

End Nfs3.

Import Nfs3.

(* ===================================================================== *)
(** ** Notions the properties are stated with *)
(* ===================================================================== *)

(** Induction on trees: the children of a block satisfy the property. *)
Fixpoint node_ind (P : node -> Prop)
    (HDWord : forall nm v e f, P (DWord nm v e f))
    (HQWord : forall nm v e f, P (QWord nm v e f))
    (HBytes : forall nm v s f, P (Bytes nm v s f))
    (HStatic : forall nm v, P (Static nm v))
    (HSize : forall nm t w e m f, P (Size nm t w e m f))
    (HBlock : forall nm cs, Forall P cs -> P (Block nm cs))
    (n : node) {struct n} : P n :=
  match n with
  | DWord nm v e f => HDWord nm v e f
  | QWord nm v e f => HQWord nm v e f
  | Bytes nm v s f => HBytes nm v s f
  | Static nm v => HStatic nm v
  | Size nm t w e m f => HSize nm t w e m f
  | Block nm cs =>
      HBlock nm cs
        ((fix all (cs : list node) : Forall P cs :=
            match cs with
            | [] => Forall_nil P
            | c :: cs' =>
                Forall_cons c
                  (node_ind P HDWord HQWord HBytes HStatic HSize HBlock c)
                  (all cs')
            end) cs)
  end.

(** [v] is representable as an unsigned integer of [w] bytes. *)
Definition fits (w : nat) (v : Z) : Prop := 0 <= v < 2 ^ (8 * Z.of_nat w).

(** The handle [fhandle3] encodes: the given one, or the default pattern. *)
Definition effective_handle (handle_data : option bytes) : bytes :=
  match handle_data with
  | None => bytes_mul [Byte.xde; Byte.xad; Byte.xbe; Byte.xef] 8
  | Some h => h
  end.

(** The wire form of an XDR opaque: length prefix, data, padding. *)
Definition xdr_opaque (data : bytes) : bytes :=
  be_split 4 (len data) ++ xdr_padded_bytes data.

(** The procedure builders that take [handle_data], as functions of it;
    the other arguments are at their defaults. *)
Definition handle_builders : list (option bytes -> result Request) :=
  [ nfs3_getattr;
    (fun h => nfs3_access h default_access_bits);
    nfs3_readlink;
    (fun h => nfs3_read h 0 default_read_count);
    (fun h => nfs3_write h 0 0 FILE_SYNC []);
    (fun h => nfs3_readdir h 0 None default_read_count);
    (fun h => nfs3_readdirplus h 0 None default_dircount default_maxcount);
    nfs3_fsstat;
    nfs3_fsinfo;
    nfs3_pathconf;
    (fun h => nfs3_commit h 0 0) ].

(** The six header fields every call builder puts first in the RPC body,
    and the bytes they stand for on the wire. *)
Definition rpc_header_fields (name : string) (program version procedure : Z)
    (xid : Z) : list node :=
  [ DWord (name ++ "_xid") xid BIG_ENDIAN (Some true);
    DWord (name ++ "_msg_type") MSG_TYPE_CALL BIG_ENDIAN (Some true);
    DWord (name ++ "_rpc_version") RPC_VERSION BIG_ENDIAN (Some true);
    DWord (name ++ "_program") program BIG_ENDIAN (Some true);
    DWord (name ++ "_version") version BIG_ENDIAN (Some true);
    DWord (name ++ "_procedure") procedure BIG_ENDIAN (Some true) ].

Definition rpc_header_bytes (program version procedure : Z) (xid : Z)
    : bytes :=
  be_split 4 xid ++ be_split 4 MSG_TYPE_CALL ++ be_split 4 RPC_VERSION
  ++ be_split 4 program ++ be_split 4 version ++ be_split 4 procedure.

(** The 16 bytes of an AUTH_NONE credential and verifier. *)
Definition auth_none_bytes : bytes :=
  be_split 4 AUTH_NONE ++ be_split 4 0 ++ be_split 4 AUTH_NONE
  ++ be_split 4 0.

(** [same_layout a b]: [b] is [a] with the values of some leaf fields
    replaced by values of the same byte length.  An integer field keeps
    its width, so any value that fits may replace one that fits; a byte
    string is replaced by one of the same length.  Size fields, names and
    the shape of the tree are untouched. *)
#[local] Unset Elimination Schemes.
Inductive same_layout : node -> node -> Prop :=
| same_refl (n : node) : same_layout n n
| same_DWord (nm : string) (v v' : Z) (e : endianness) (f : option bool) :
    fits 4 v -> fits 4 v' ->
    same_layout (DWord nm v e f) (DWord nm v' e f)
| same_QWord (nm : string) (v v' : Z) (e : endianness) (f : option bool) :
    fits 8 v -> fits 8 v' ->
    same_layout (QWord nm v e f) (QWord nm v' e f)
| same_Bytes (nm : string) (v v' : bytes) (s : Z) (f : option bool) :
    len v = len v' ->
    same_layout (Bytes nm v s f) (Bytes nm v' s f)
| same_Static (nm : string) (v v' : bytes) :
    len v = len v' ->
    same_layout (Static nm v) (Static nm v')
| same_Block (nm : string) (cs cs' : list node) :
    Forall2 same_layout cs cs' ->
    same_layout (Block nm cs) (Block nm cs').
#[local] Set Elimination Schemes.

(** The rendered output of every size field of a tree, with the field's
    name, in document order. *)
Fixpoint size_fields (tbl : sizes) (n : node)
    : list (string * result bytes) :=
  match n with
  | Size nm target w e math _ => [(nm, resolve_size tbl nm target w e math)]
  | Block _ cs => flat_map (size_fields tbl) cs
  | _ => []
  end.

Definition size_outputs (cs : list node)
    : result (list (string * result bytes)) :=
  '(_, tbl) <- serialize_children cs map.empty ;;
  Ok (flat_map (size_fields tbl) cs).

(** Two outcomes of phase 1 that agree: the same error, or byte strings
    of the same length and the same table of container lengths. *)
Definition agree (x y : result (bytes * sizes)) : Prop :=
  match x, y with
  | Ok (bx, tx), Ok (by_, ty) => len bx = len by_ /\ tx = ty
  | Err ex, Err ey => ex = ey
  | _, _ => False
  end.

(** Decoding by the XDR length-prefix convention, as a receiver does: read
    the 4-byte big-endian length prefix [n], then take the next [n] bytes.
    [None] when the input is shorter than that. *)
Definition xdr_decode_opaque (bs : bytes) : option bytes :=
  if len bs <? 4 then None
  else
    let n := be_combine (firstn 4 bs) in
    let rest := skipn 4 bs in
    if len rest <? n then None else Some (firstn (Z.to_nat n) rest).

(* ===================================================================== *)
(** ** Further notions: receivers, layouts, builder calls *)
(* ===================================================================== *)

(** Reading one XDR opaque off the front of a byte stream, as a receiver
    does: the 4-byte big-endian length [n], then [n] data bytes, then the
    padding that [xdr_pad_length n] announces is skipped.  Returns the data
    and what follows; [None] when the stream is too short. *)
Definition xdr_read_opaque (bs : bytes) : option (bytes * bytes) :=
  if len bs <? 4 then None
  else
    let n := be_combine (firstn 4 bs) in
    let rest := skipn 4 bs in
    let padded := n + xdr_pad_length n in
    if len rest <? padded then None
    else Some (firstn (Z.to_nat n) rest, skipn (Z.to_nat padded) rest).

(** The tree both [fhandle3] and [filename3] build around their bytes. *)
Definition opaque_block (name : string) (data : bytes) : node :=
  Block name
    [ DWord (name ++ "_length") (len data) BIG_ENDIAN (Some true);
      Bytes (name ++ "_data") (xdr_padded_bytes data)
            (len (xdr_padded_bytes data)) (Some true) ].

(** The wire form of an AUTH_SYS credential body and of the whole
    authentication block around it, for the encoded machine name [nb]. *)
Definition auth_sys_cred_bytes (nb : bytes) (uid gid : Z) : bytes :=
  be_split 4 0 ++ be_split 4 (len nb) ++ xdr_padded_bytes nb
  ++ be_split 4 uid ++ be_split 4 gid ++ be_split 4 0.

Definition auth_sys_bytes (nb : bytes) (uid gid : Z) : bytes :=
  be_split 4 AUTH_SYS
  ++ be_split 4 (len (auth_sys_cred_bytes nb uid gid))
  ++ auth_sys_cred_bytes nb uid gid
  ++ be_split 4 AUTH_NONE ++ be_split 4 0.

(** The tree [auth_sys_block] builds once the machine name is encoded. *)
Definition auth_sys_tree (name : string) (name_bytes : bytes) (uid gid : Z)
    : node :=
  Block name
    [ DWord (name ++ "_cred_flavor") AUTH_SYS BIG_ENDIAN None;
      Size (name ++ "_cred_length") (name ++ "_cred_body") 4
           BIG_ENDIAN None None;
      Block (name ++ "_cred_body")
        [ DWord (name ++ "_stamp") 0 BIG_ENDIAN None;
          DWord (name ++ "_machine_len") (len name_bytes) BIG_ENDIAN None;
          Static (name ++ "_machine") (xdr_padded_bytes name_bytes);
          DWord (name ++ "_uid") uid BIG_ENDIAN (Some true);
          DWord (name ++ "_gid") gid BIG_ENDIAN (Some true);
          DWord (name ++ "_aux_gid_count") 0 BIG_ENDIAN None ];
      DWord (name ++ "_verf_flavor") AUTH_NONE BIG_ENDIAN None;
      DWord (name ++ "_verf_length") 0 BIG_ENDIAN None ].

(** The UTF-8 bytes of the default machine name, "fuzzer". *)
Definition fuzzer_bytes : bytes :=
  [Byte.x66; Byte.x75; Byte.x7a; Byte.x7a; Byte.x65; Byte.x72].

(** Every leaf of the tree takes a multiple of 4 bytes on the wire. *)
Fixpoint word_aligned (n : node) : Prop :=
  match n with
  | DWord _ _ _ _ | QWord _ _ _ _ => True
  | Bytes _ v _ _ | Static _ v => len v mod 4 = 0
  | Size _ _ w _ _ _ => Z.of_nat w mod 4 = 0
  | Block _ cs =>
      (fix all (cs : list node) : Prop :=
         match cs with
         | [] => True
         | c :: cs' => word_aligned c /\ all cs'
         end) cs
  end.

(** The tree holds no size field. *)
Fixpoint size_free (n : node) : Prop :=
  match n with
  | Size _ _ _ _ _ _ => False
  | Block _ cs =>
      (fix all (cs : list node) : Prop :=
         match cs with
         | [] => True
         | c :: cs' => size_free c /\ all cs'
         end) cs
  | _ => True
  end.

(** The names of all the nodes of a tree, in document order. *)
Fixpoint node_names (n : node) : list string :=
  match n with
  | DWord nm _ _ _ | QWord nm _ _ _ | Bytes nm _ _ _ | Static nm _
  | Size nm _ _ _ _ _ => [nm]
  | Block nm cs => nm :: flat_map node_names cs
  end.

(** Pairwise distinct strings, decided. *)
Fixpoint distinct (l : list string) : bool :=
  match l with
  | [] => true
  | x :: l' => negb (existsb (String.eqb x) l') && distinct l'
  end.

(** The cookie verifier READDIR and READDIRPLUS send: eight zero bytes
    unless one is given. *)
Definition effective_cookieverf (cookieverf : option bytes) : bytes :=
  match cookieverf with
  | None => bytes_mul [Byte.x00] 8
  | Some c => c
  end.

(** [builder_call q]: [q] is the outcome of calling one of the eighteen
    procedure builders, with any arguments.  A cookie verifier, when one
    is given, has the 8 bytes its field declares. *)
Inductive builder_call : result Request -> Prop :=
| call_null : builder_call nfs3_null
| call_getattr h : builder_call (nfs3_getattr h)
| call_lookup h f : builder_call (nfs3_lookup h f)
| call_access h a : builder_call (nfs3_access h a)
| call_readlink h : builder_call (nfs3_readlink h)
| call_read h o c : builder_call (nfs3_read h o c)
| call_write h o c s d : builder_call (nfs3_write h o c s d)
| call_create h f m : builder_call (nfs3_create h f m)
| call_mkdir h f : builder_call (nfs3_mkdir h f)
| call_remove h f : builder_call (nfs3_remove h f)
| call_rmdir h f : builder_call (nfs3_rmdir h f)
| call_rename h f h' f' : builder_call (nfs3_rename h f h' f')
| call_readdir h k cv c :
    len (effective_cookieverf cv) = 8 ->
    builder_call (nfs3_readdir h k cv c)
| call_readdirplus h k cv d m :
    len (effective_cookieverf cv) = 8 ->
    builder_call (nfs3_readdirplus h k cv d m)
| call_fsstat h : builder_call (nfs3_fsstat h)
| call_fsinfo h : builder_call (nfs3_fsinfo h)
| call_pathconf h : builder_call (nfs3_pathconf h)
| call_commit h o c : builder_call (nfs3_commit h o c).

(** The request name each builder uses, with the procedure number RFC 1813
    gives the procedure of that name. *)
Definition procedure_numbers : list (string * Z) :=
  [ ("NFS3-NULL", NFSPROC3_NULL); ("NFS3-GETATTR", NFSPROC3_GETATTR);
    ("NFS3-LOOKUP", NFSPROC3_LOOKUP); ("NFS3-ACCESS", NFSPROC3_ACCESS);
    ("NFS3-READLINK", NFSPROC3_READLINK); ("NFS3-READ", NFSPROC3_READ);
    ("NFS3-WRITE", NFSPROC3_WRITE); ("NFS3-CREATE", NFSPROC3_CREATE);
    ("NFS3-MKDIR", NFSPROC3_MKDIR); ("NFS3-REMOVE", NFSPROC3_REMOVE);
    ("NFS3-RMDIR", NFSPROC3_RMDIR); ("NFS3-RENAME", NFSPROC3_RENAME);
    ("NFS3-READDIR", NFSPROC3_READDIR);
    ("NFS3-READDIRPLUS", NFSPROC3_READDIRPLUS);
    ("NFS3-FSSTAT", NFSPROC3_FSSTAT); ("NFS3-FSINFO", NFSPROC3_FSINFO);
    ("NFS3-PATHCONF", NFSPROC3_PATHCONF);
    ("NFS3-COMMIT", NFSPROC3_COMMIT) ]%string.

(** What every builder call has in common: the request is the one
    [rpc_call_request] builds, with AUTH_NONE and the default transaction
    id, for the NFS program, version 3 and the procedure number of its
    name, around arguments with aligned leaves and no size field. *)
Definition plain_call (q : result Request) : Prop :=
  forall r, q = Ok r ->
    exists name procedure args,
      rpc_call_request name PROG_NFS NFS_V3 procedure args "none" default_xid
      = Ok r /\
      In (name, procedure) procedure_numbers /\
      Forall word_aligned args /\ Forall size_free args /\
      distinct (flat_map node_names (req_children r)) = true.

(* ===================================================================== *)
(** ** examples/nfs3.py: choosing and registering procedures *)
(* ===================================================================== *)

Module Driver.

(** [PROCEDURES]: procedure name -> builder, in insertion order, which is
    the order of [PROCEDURES.keys()].  The driver calls every builder
    without arguments, so each entry holds the builder at its defaults. *)
Definition PROCEDURES : list (str * result Request) :=
  [ (str_of_string "NULL", nfs3_null);
    (str_of_string "GETATTR", nfs3_getattr None);
    (str_of_string "LOOKUP", nfs3_lookup None (str_of_string "testfile"));
    (str_of_string "ACCESS", nfs3_access None 0x3F);
    (str_of_string "READLINK", nfs3_readlink None);
    (str_of_string "READ", nfs3_read None 0 4096);
    (str_of_string "WRITE", nfs3_write None 0 0 FILE_SYNC []);
    (str_of_string "CREATE",
       nfs3_create None (str_of_string "newfile") UNCHECKED);
    (str_of_string "MKDIR", nfs3_mkdir None (str_of_string "newdir"));
    (str_of_string "REMOVE", nfs3_remove None (str_of_string "testfile"));
    (str_of_string "RMDIR", nfs3_rmdir None (str_of_string "testdir"));
    (str_of_string "RENAME",
       nfs3_rename None (str_of_string "oldname")
                   None (str_of_string "newname"));
    (str_of_string "READDIR", nfs3_readdir None 0 None 4096);
    (str_of_string "READDIRPLUS", nfs3_readdirplus None 0 None 4096 8192);
    (str_of_string "FSSTAT", nfs3_fsstat None);
    (str_of_string "FSINFO", nfs3_fsinfo None);
    (str_of_string "PATHCONF", nfs3_pathconf None);
    (str_of_string "COMMIT", nfs3_commit None 0 0) ].

Definition DEFAULT_PROCEDURES : list str :=
  List.map str_of_string
    [ "NULL"; "GETATTR"; "LOOKUP"; "ACCESS"; "FSSTAT"; "FSINFO";
      "PATHCONF" ]%string.

(** Equality of two [str], code point by code point. *)
Fixpoint str_eqb (a b : str) : bool :=
  match a, b with
  | [], [] => true
  | x :: a', y :: b' => (x =? y) && str_eqb a' b'
  | _, _ => false
  end.

(** [list(PROCEDURES.keys())] *)
Definition keys : list str := List.map fst PROCEDURES.

(** [name in PROCEDURES] *)
Definition is_key (name : str) : bool := existsb (str_eqb name) keys.

(** [PROCEDURES[name]]; [None] stands for [KeyError]. *)
Fixpoint lookup (name : str) (d : list (str * result Request))
    : option (result Request) :=
  match d with
  | [] => None
  | (k, v) :: d' => if str_eqb name k then Some v else lookup name d'
  end.

(** [s.split(sep)] for a separator of one code point. *)
Fixpoint split_on (sep : Z) (s : str) : list str :=
  match s with
  | [] => [[]]
  | c :: s' =>
      if c =? sep then [] :: split_on sep s'
      else match split_on sep s' with
           | w :: ws => (c :: w) :: ws
           | [] => [[c]]
           end
  end.

(** How the driver can end before fuzzing starts. *)
Inductive outcome (A : Type) : Type :=
| Done (a : A)
| UnknownProcedure (name : str)
| KeyError (name : str)
| Raised (e : error).
Arguments Done {A} a.
Arguments UnknownProcedure {A} name.
Arguments KeyError {A} name.
Arguments Raised {A} e.

(** The first name that is not a key of [PROCEDURES], if any: the
    validation loop stops there with [parser.error]. *)
Fixpoint first_unknown (names : list str) : option str :=
  match names with
  | [] => None
  | n :: names' => if is_key n then first_unknown names' else Some n
  end.

Section Selection.

(** Python's [str.strip] and [str.upper] are taken as given. *)
Variables (strip upper : str -> str).

(** [[p.strip().upper() for p in procedures.split(",")]] *)
Definition normalize (procedures : str) : list str :=
  List.map (fun p => upper (strip p)) (split_on 44 procedures).

(** "Determine which procedures to fuzz": [--all-procedures] first, then
    a non-empty [--procedures], else the defaults. *)
Definition procedure_names (all_procedures : bool) (procedures : option str)
    : outcome (list str) :=
  if all_procedures then Done keys
  else
    match procedures with
    | Some (c :: p) =>
        let names := normalize (c :: p) in
        match first_unknown names with
        | Some name => UnknownProcedure name
        | None => Done names
        end
    | _ => Done DEFAULT_PROCEDURES
    end.

End Selection.

(** "Register procedures": look each name up and call its builder. *)
Fixpoint register (names : list str) : outcome (list Request) :=
  match names with
  | [] => Done []
  | name :: names' =>
      match lookup name PROCEDURES with
      | None => KeyError name
      | Some (Err e) => Raised e
      | Some (Ok req) =>
          match register names' with
          | Done requests => Done (req :: requests)
          | other => other
          end
      end
  end.

(** An ASCII [str] as a string, to compare keys with request names. *)
Definition string_of_str (s : str) : string :=
  string_of_list_ascii (List.map (fun c => ascii_of_N (Z.to_N c)) s).

(** ASCII stand-ins for [str.upper] and [str.strip], which agree with
    Python's on ASCII letters and blanks. *)
Definition ascii_upper (s : str) : str :=
  List.map (fun c => if (97 <=? c) && (c <=? 122) then c - 32 else c) s.

Definition is_blank (c : Z) : bool := (c =? 32) || ((9 <=? c) && (c <=? 13)).

Fixpoint lstrip (s : str) : str :=
  match s with
  | c :: s' => if is_blank c then lstrip s' else s
  | [] => []
  end.

Definition ascii_strip (s : str) : str :=
  List.rev (lstrip (List.rev (lstrip s))).

End Driver.

Import Driver.

(* ===================================================================== *)
(** ** The model at work *)
(* ===================================================================== *)

(** Multi-byte code points: U+20AC, U+1F600, U+00E9, then "A". *)
Example encode_utf8_multibyte :
  encode_utf8 [0x20AC; 0x1F600; 0xE9; 0x41]
  = Ok [Byte.xe2; Byte.x82; Byte.xac; Byte.xf0; Byte.x9f; Byte.x98; Byte.x80;
        Byte.xc3; Byte.xa9; Byte.x41].
Proof. vm_compute. reflexivity. Qed.

(** A lone surrogate cannot be encoded. *)
Example encode_utf8_surrogate : encode_utf8 [0x41; 0xD800] = Err EncodingError.
Proof. vm_compute. reflexivity. Qed.

(** With AUTH_SYS the credential length field measures the credential
    body: 28 bytes for the machine name "fuzzer". *)
Example auth_sys_cred_length :
  (a <- auth_sys_block "a" auth_sys_default_machine_name 0 0 ;;
   b <- render_node a ;;
   Ok (firstn 8 b))
  = Ok (be_split 4 AUTH_SYS ++ be_split 4 28).
Proof. vm_compute. reflexivity. Qed.

(** A size field whose target is not in the tree. *)
Example dangling_size_target :
  render_children [ tcp_record_mark "nowhere" "mark" ]
  = Err (UnknownSizeTarget "nowhere").
Proof. vm_compute. reflexivity. Qed.

(** A value too large for its field is rejected. *)
Example dword_out_of_range :
  render_children [ DWord "x" 0x100000000 BIG_ENDIAN None ]
  = Err (ValueOutOfRange "x").
Proof. vm_compute. reflexivity. Qed.

(** Every builder, called with its defaults, returns a request that
    renders. *)
Example all_default_requests_render :
  forallb (fun q => is_ok (r <- q ;; render r)) get_all_nfs3_requests = true.
Proof. vm_compute. reflexivity. Qed.

(* ===================================================================== *)
(** ** Integer encoding *)
(* ===================================================================== *)

Lemma len_app {A : Type} (a b : list A) : len (a ++ b) = len a + len b.
Proof. unfold len. rewrite length_app. lia. Qed.

Lemma len_nonneg {A : Type} (a : list A) : 0 <= len a.
Proof. unfold len. lia. Qed.

Lemma len_be_split (w : nat) (v : Z) : len (be_split w v) = Z.of_nat w.
Proof. unfold len, be_split. now rewrite length_rev, length_le_split. Qed.

Lemma length_be_split (w : nat) (v : Z) : List.length (be_split w v) = w.
Proof. unfold be_split. now rewrite length_rev, length_le_split. Qed.

Lemma be_combine_split (w : nat) (v : Z) :
  fits w v -> be_combine (be_split w v) = v.
Proof.
  intros Hv. unfold be_combine, be_split.
  rewrite rev_involutive, le_combine_split.
  apply Z.mod_small. unfold fits in Hv.
  now rewrite Z.mul_comm.
Qed.

Lemma encode_uint_fits (field : string) (w : nat) (v : Z) :
  fits w v -> encode_uint field w BIG_ENDIAN v = Ok (be_split w v).
Proof.
  intros [Hlo Hhi]. unfold encode_uint.
  apply Z.leb_le in Hlo. apply Z.ltb_lt in Hhi.
  now rewrite Hlo, Hhi.
Qed.

Lemma encode_uint_ok (field : string) (w : nat) (e : endianness) (v : Z)
    (bs : bytes) :
  encode_uint field w e v = Ok bs -> fits w v /\ List.length bs = w.
Proof.
  unfold encode_uint, fits.
  destruct (0 <=? v) eqn:Hlo; [|discriminate].
  destruct (v <? 2 ^ (8 * Z.of_nat w)) eqn:Hhi; [|discriminate].
  cbn [andb]. intros [= <-].
  apply Z.leb_le in Hlo. apply Z.ltb_lt in Hhi.
  split; [lia|].
  destruct e; [apply length_be_split | apply length_le_split].
Qed.

(* ===================================================================== *)
(** ** XDR padding *)
(* ===================================================================== *)

Lemma xdr_pad_length_range (n : Z) : 0 <= xdr_pad_length n < 4.
Proof. unfold xdr_pad_length. apply Z.mod_pos_bound. lia. Qed.

Lemma xdr_pad_length_aligned (n : Z) : (n + xdr_pad_length n) mod 4 = 0.
Proof.
  unfold xdr_pad_length.
  rewrite Zplus_mod_idemp_r.
  replace (n + (4 - n mod 4)) with (4 + (n - n mod 4)) by lia.
  rewrite <- Zplus_mod_idemp_r, Zminus_mod_idemp_r.
  rewrite Z.sub_diag. reflexivity.
Qed.

Lemma bytes_mul_single (b : byte) (n : Z) :
  bytes_mul [b] n = List.repeat b (Z.to_nat n).
Proof.
  unfold bytes_mul. induction (Z.to_nat n) as [|k IH]; cbn; [reflexivity|].
  now rewrite IH.
Qed.

Lemma xdr_padded_bytes_eq (b : bytes) :
  xdr_padded_bytes b
  = b ++ List.repeat Byte.x00 (Z.to_nat (xdr_pad_length (len b))).
Proof. unfold xdr_padded_bytes. now rewrite bytes_mul_single. Qed.

Lemma len_xdr_padded_bytes (b : bytes) :
  len (xdr_padded_bytes b) = len b + xdr_pad_length (len b).
Proof.
  rewrite xdr_padded_bytes_eq, len_app. unfold len at 2.
  rewrite repeat_length, Z2Nat.id; [reflexivity|].
  apply xdr_pad_length_range.
Qed.

(** C5: for every natural number n, [xdr_pad_length n] is one of 0, 1, 2, 3
    and [n + xdr_pad_length n] is a multiple of 4; hence for every byte
    sequence [b] the length of [xdr_padded_bytes b] is a multiple of 4, and
    [xdr_padded_bytes b] starts with the bytes of [b], followed by zero
    bytes only. *)
Theorem xdr_padding_aligned :
  (forall n : nat,
      In (xdr_pad_length (Z.of_nat n)) [0; 1; 2; 3] /\
      (Z.of_nat n + xdr_pad_length (Z.of_nat n)) mod 4 = 0) /\
  (forall b : bytes,
      len (xdr_padded_bytes b) mod 4 = 0 /\
      firstn (List.length b) (xdr_padded_bytes b) = b /\
      Forall (fun x => x = Byte.x00)
             (skipn (List.length b) (xdr_padded_bytes b))).
Proof.
  split.
  - intros n. split; [|apply xdr_pad_length_aligned].
    pose proof (xdr_pad_length_range (Z.of_nat n)) as H.
    cbn [In]. lia.
  - intros b. split; [|split].
    + rewrite len_xdr_padded_bytes. apply xdr_pad_length_aligned.
    + rewrite xdr_padded_bytes_eq.
      rewrite firstn_app, Nat.sub_diag, firstn_all. cbn.
      apply app_nil_r.
    + rewrite xdr_padded_bytes_eq.
      rewrite skipn_app, Nat.sub_diag, skipn_all. cbn.
      apply Forall_forall. intros x Hx. now apply repeat_spec in Hx.
Qed.

(* ===================================================================== *)
(** ** The TCP record mark *)
(* ===================================================================== *)

Lemma land_last_fragment_bit (L : Z) :
  0 <= L < 2 ^ 31 -> Z.land 0x80000000 L = 0.
Proof.
  intros HL. change 0x80000000 with (2 ^ 31).
  apply Z.bits_inj'. intros n Hn.
  rewrite Z.land_spec, Z.bits_0, Z.pow2_bits_eqb by lia.
  destruct (Z.eqb_spec 31 n) as [<- | Hne]; [|reflexivity].
  rewrite <- (Z.mod_small L (2 ^ 31)) by lia.
  rewrite Z.mod_pow2_bits_high by lia. reflexivity.
Qed.

Lemma last_fragment_bit (L : Z) :
  0 <= L < 2 ^ 31 ->
  Z.lor 0x80000000 L = 0x80000000 + L /\
  Z.testbit (Z.lor 0x80000000 L) 31 = true.
Proof.
  intros HL. split.
  - pose proof (land_last_fragment_bit L HL) as H0.
    rewrite <- Z.lxor_lor by exact H0.
    symmetry. now apply Z.add_nocarry_lxor.
  - rewrite Z.lor_spec. reflexivity.
Qed.

(** C2: for every body length [L] with [0 <= L < 2^31], the record mark
    that [tcp_record_mark] computes for a target block of [L] bytes is the
    4-byte big-endian encoding of [0x80000000 | L]; its most significant
    bit is 1 (so its first byte is at least 0x80). *)
Theorem tcp_record_mark_value (block_name name : string) (tbl : sizes)
    (L : Z) :
  0 <= L < 2 ^ 31 ->
  map.get tbl block_name = Some L ->
  exists bs : bytes,
    resolve tbl (tcp_record_mark block_name name) = Ok bs /\
    bs = be_split 4 (Z.lor 0x80000000 L) /\
    len bs = 4 /\
    be_combine bs = Z.lor 0x80000000 L /\
    Z.testbit (be_combine bs) 31 = true /\
    (exists b0 tl, bs = b0 :: tl /\ 0x80 <= byte.unsigned b0).
Proof.
  intros HL Hget.
  destruct (last_fragment_bit L HL) as [Hsum Hbit].
  assert (Hfits : fits 4 (Z.lor 0x80000000 L)).
  { unfold fits. rewrite Hsum.
    change (2 ^ (8 * Z.of_nat 4)) with (2 ^ 32). lia. }
  exists (be_split 4 (Z.lor 0x80000000 L)).
  split; [|split; [reflexivity|split; [apply len_be_split|]]].
  - cbn [tcp_record_mark resolve]. unfold resolve_size. rewrite Hget.
    now apply encode_uint_fits.
  - rewrite be_combine_split by exact Hfits.
    split; [reflexivity|split; [exact Hbit|]].
    cbn [be_split le_split List.rev List.app].
    eexists. eexists. split; [reflexivity|].
    rewrite byte.unsigned_of_Z. unfold byte.wrap.
    rewrite !Z.shiftr_shiftr by lia. rewrite Z.shiftr_div_pow2 by lia.
    rewrite Hsum. change (2 ^ (8 + (8 + 8))) with 16777216.
    change (2 ^ 8) with 256. change (2 ^ 31) with 2147483648 in HL.
    replace ((2147483648 + L) / 16777216) with (128 + L / 16777216).
    2: { change 2147483648 with (128 * 16777216).
         rewrite Z.div_add_l by lia. reflexivity. }
    assert (0 <= L / 16777216 < 128) as Hq.
    { split; [apply Z.div_pos; lia | apply Z.div_lt_upper_bound; lia]. }
    rewrite Z.mod_small; lia.
Qed.

(** A record mark over a 40-byte body. *)
Lemma tcp_record_mark_value_witness :
  let tbl : sizes := map.put map.empty "b"%string 40 in
  0 <= 40 < 2 ^ 31 /\
  map.get tbl "b"%string = Some 40 /\
  exists bs : bytes,
    resolve tbl (tcp_record_mark "b"%string "m"%string) = Ok bs /\
    bs = be_split 4 (Z.lor 0x80000000 40) /\
    len bs = 4 /\
    be_combine bs = Z.lor 0x80000000 40 /\
    Z.testbit (be_combine bs) 31 = true /\
    (exists b0 tl, bs = b0 :: tl /\ 0x80 <= byte.unsigned b0).
Proof.
  cbv zeta.
  assert (H1 : 0 <= 40 < 2 ^ 31) by lia.
  assert (H2 : map.get (map.put (map.empty : sizes) "b"%string 40) "b"%string
               = Some 40) by reflexivity.
  split; [exact H1|]. split; [exact H2|].
  exact (tcp_record_mark_value "b"%string "m"%string
           (map.put map.empty "b"%string 40) 40 H1 H2).
Defined.

(* ===================================================================== *)
(** ** Rendering: blocks and their children *)
(* ===================================================================== *)

Lemma serialize_Block (nm : string) (cs : list node) (tbl : sizes) :
  serialize (Block nm cs) tbl
  = '(b, tbl') <- serialize_children cs tbl ;;
    Ok (b, map.put tbl' nm (len b)).
Proof. reflexivity. Qed.

Lemma resolve_Block (tbl : sizes) (nm : string) (cs : list node) :
  resolve tbl (Block nm cs) = resolve_children tbl cs.
Proof.
  cbn [resolve].
  induction cs as [|c cs IH]; [reflexivity|].
  cbn [resolve_children]. destruct (resolve tbl c) as [b1|e]; [|reflexivity].
  cbn [bind]. now rewrite IH.
Qed.

Lemma resolve_children_cons (tbl : sizes) (c : node) (cs : list node) :
  resolve_children tbl (c :: cs)
  = b1 <- resolve tbl c ;;
    b2 <- resolve_children tbl cs ;;
    Ok (b1 ++ b2).
Proof. reflexivity. Qed.

Lemma resolve_children_app (tbl : sizes) (l1 l2 : list node) :
  resolve_children tbl (l1 ++ l2)
  = b1 <- resolve_children tbl l1 ;;
    b2 <- resolve_children tbl l2 ;;
    Ok (b1 ++ b2).
Proof.
  induction l1 as [|c l1 IH]; cbn [List.app resolve_children].
  - cbn [bind]. destruct (resolve_children tbl l2); reflexivity.
  - destruct (resolve tbl c) as [b|e]; [|reflexivity]. cbn [bind].
    rewrite IH. destruct (resolve_children tbl l1) as [b1|e]; [|reflexivity].
    cbn [bind]. destruct (resolve_children tbl l2) as [b2|e]; [|reflexivity].
    cbn [bind]. now rewrite app_assoc.
Qed.

(* ===================================================================== *)
(** ** The NULL call *)
(* ===================================================================== *)

(** C1: the request of [nfs3_null], which carries the default transaction
    id 0x00000001, renders to a byte sequence whose first 4 bytes are the
    big-endian encoding of 0x80000028 and whose RPC body, everything after
    these 4 bytes, is exactly 40 bytes long: six big-endian uint32 header
    fields followed by the 16 bytes of the AUTH_NONE block. *)
Theorem nfs3_null_rendered :
  exists (r : Request) (bs auth : bytes),
    nfs3_null = Ok r /\
    render r = Ok bs /\
    firstn 4 bs = be_split 4 0x80000028 /\
    len (skipn 4 bs) = 40 /\
    render_children (auth_none "NFS3-NULL_auth") = Ok auth /\
    len auth = 16 /\
    skipn 4 bs
    = be_split 4 0x00000001 ++ be_split 4 MSG_TYPE_CALL
      ++ be_split 4 RPC_VERSION ++ be_split 4 PROG_NFS
      ++ be_split 4 NFS_V3 ++ be_split 4 NFSPROC3_NULL ++ auth.
Proof.
  eexists. eexists. eexists.
  split; [reflexivity|].
  split; [vm_compute; reflexivity|].
  split; [vm_compute; reflexivity|].
  split; [vm_compute; reflexivity|].
  split; [vm_compute; reflexivity|].
  split; vm_compute; reflexivity.
Qed.

(* ===================================================================== *)
(** ** The directory operation of LOOKUP *)
(* ===================================================================== *)

(** C9: with the 32-byte directory handle de ad be ef (8 times) and the
    filename "testfile", the directory-operation container that
    [nfs3_lookup] builds renders to exactly 48 bytes: the length prefix 32
    and the 32 handle bytes, then the length prefix 8 and the 8 filename
    bytes, with no padding byte in either part. *)
Theorem nfs3_lookup_dirop_rendered :
  let handle := bytes_mul [Byte.xde; Byte.xad; Byte.xbe; Byte.xef] 8 in
  let filename := str_of_string "testfile" in
  exists (r : Request) (body : list node) (what : node)
         (bs name_bytes : bytes),
    nfs3_lookup (Some handle) filename = Ok r /\
    req_children r
    = [ tcp_record_mark "NFS3-LOOKUP_rpc_message" "NFS3-LOOKUP_record_mark";
        Block "NFS3-LOOKUP_rpc_message" body ] /\
    skipn 10 body = [what] /\
    dirop3 "NFS3-LOOKUP_what" (Some handle) filename = Ok what /\
    render_node what = Ok bs /\
    len bs = 48 /\
    encode_utf8 filename = Ok name_bytes /\
    len handle = 32 /\ len name_bytes = 8 /\
    xdr_pad_length (len handle) = 0 /\ xdr_pad_length (len name_bytes) = 0 /\
    bs = be_split 4 32 ++ handle ++ be_split 4 8 ++ name_bytes.
Proof.
  cbv zeta.
  eexists. eexists. eexists. eexists. eexists.
  split; [reflexivity|].
  split; [reflexivity|].
  split; [reflexivity|].
  split; [reflexivity|].
  split; [vm_compute; reflexivity|].
  split; [vm_compute; reflexivity|].
  split; [vm_compute; reflexivity|].
  repeat (split; [vm_compute; reflexivity|]).
  vm_compute; reflexivity.
Qed.

(* ===================================================================== *)
(** ** Selection of the authentication block *)
(* ===================================================================== *)

(** C10: for every [auth_type] other than "sys" (misspellings such as "SYS"
    or "unix" included), [rpc_call_request] and [rpc_call_block] raise no
    error and build the AUTH_NONE block: the tree, and hence the rendered
    message, is identical to the one built with [auth_type = "none"]. *)
Theorem unrecognized_auth_type_is_auth_none
    (name : string) (program version procedure : Z)
    (args_children : list node) (auth_type : string) (xid : Z) :
  auth_type <> "sys"%string ->
  let body :=
    Block (name ++ "_rpc_message")
      ([ DWord (name ++ "_xid") xid BIG_ENDIAN (Some true);
         DWord (name ++ "_msg_type") MSG_TYPE_CALL BIG_ENDIAN (Some true);
         DWord (name ++ "_rpc_version") RPC_VERSION BIG_ENDIAN (Some true);
         DWord (name ++ "_program") program BIG_ENDIAN (Some true);
         DWord (name ++ "_version") version BIG_ENDIAN (Some true);
         DWord (name ++ "_procedure") procedure BIG_ENDIAN (Some true) ]
       ++ auth_none (name ++ "_auth") ++ args_children) in
  let children :=
    [ tcp_record_mark (name ++ "_rpc_message") (name ++ "_record_mark");
      body ] in
  rpc_call_request name program version procedure args_children auth_type xid
  = Ok (mkRequest name children) /\
  rpc_call_block name program version procedure args_children auth_type xid
  = Ok children /\
  rpc_call_request name program version procedure args_children auth_type xid
  = rpc_call_request name program version procedure args_children "none" xid /\
  rpc_call_block name program version procedure args_children auth_type xid
  = rpc_call_block name program version procedure args_children "none" xid /\
  (r <- rpc_call_request name program version procedure args_children
          auth_type xid ;; render r)
  = (r <- rpc_call_request name program version procedure args_children
            "none" xid ;; render r).
Proof.
  intros Hne. cbv zeta.
  apply String.eqb_neq in Hne.
  unfold rpc_call_request, rpc_call_block. rewrite Hne.
  change (String.eqb "none" "sys") with false.
  cbn [bind]. repeat split; reflexivity.
Qed.

(** The misspelling "SYS" selects AUTH_NONE. *)
Lemma unrecognized_auth_type_witness :
  "SYS"%string <> "sys"%string /\
  rpc_call_request "X" PROG_NFS 3 0 [] "SYS" 1
  = rpc_call_request "X" PROG_NFS 3 0 [] "none" 1 /\
  rpc_call_block "X" PROG_NFS 3 0 [] "SYS" 1
  = rpc_call_block "X" PROG_NFS 3 0 [] "none" 1.
Proof.
  assert (H : "SYS"%string <> "sys"%string) by discriminate.
  split; [exact H|].
  pose proof (unrecognized_auth_type_is_auth_none "X" PROG_NFS 3 0 [] "SYS" 1 H)
    as [_ [_ [H1 [H2 _]]]].
  split; [exact H1 | exact H2].
Defined.

(* ===================================================================== *)
(** ** File handles *)
(* ===================================================================== *)

Lemma fhandle3_tree (name : string) (handle_data : option bytes) :
  fhandle3 name handle_data
  = Block name
      [ DWord (name ++ "_length") (len (effective_handle handle_data))
              BIG_ENDIAN (Some true);
        Bytes (name ++ "_data")
              (xdr_padded_bytes (effective_handle handle_data))
              (len (xdr_padded_bytes (effective_handle handle_data)))
              (Some true) ].
Proof. destruct handle_data; reflexivity. Qed.

Lemma serialize_fhandle3 (name : string) (handle_data : option bytes)
    (tbl : sizes) :
  fits 4 (len (effective_handle handle_data)) ->
  serialize (fhandle3 name handle_data) tbl
  = Ok (xdr_opaque (effective_handle handle_data),
        map.put tbl name (len (xdr_opaque (effective_handle handle_data)))).
Proof.
  intros Hfit. rewrite fhandle3_tree, serialize_Block.
  cbn [serialize_children serialize].
  rewrite encode_uint_fits by exact Hfit.
  cbn [bind]. rewrite app_nil_r. reflexivity.
Qed.

Lemma resolve_fhandle3 (tbl : sizes) (name : string)
    (handle_data : option bytes) :
  fits 4 (len (effective_handle handle_data)) ->
  resolve tbl (fhandle3 name handle_data)
  = Ok (xdr_opaque (effective_handle handle_data)).
Proof.
  intros Hfit. rewrite fhandle3_tree, resolve_Block.
  cbn [resolve_children resolve].
  rewrite encode_uint_fits by exact Hfit.
  cbn [bind]. rewrite app_nil_r. reflexivity.
Qed.

Lemma render_fhandle3 (name : string) (handle_data : option bytes) :
  fits 4 (len (effective_handle handle_data)) ->
  render_node (fhandle3 name handle_data)
  = Ok (xdr_opaque (effective_handle handle_data)).
Proof.
  intros Hfit. unfold render_node, render_children.
  cbn [serialize_children]. rewrite serialize_fhandle3 by exact Hfit.
  cbn [bind resolve_children]. rewrite resolve_fhandle3 by exact Hfit.
  cbn [bind]. now rewrite app_nil_r.
Qed.

Lemma firstn_length_app {A : Type} (l1 l2 : list A) (n : nat) :
  n = List.length l1 -> firstn n (l1 ++ l2) = l1.
Proof.
  intros ->. rewrite firstn_app, Nat.sub_diag, firstn_all.
  cbn [firstn]. apply app_nil_r.
Qed.

Lemma skipn_length_app {A : Type} (l1 l2 : list A) (n : nat) :
  n = List.length l1 -> skipn n (l1 ++ l2) = l2.
Proof.
  intros ->. rewrite skipn_app, Nat.sub_diag, skipn_all. reflexivity.
Qed.

Lemma xdr_decode_opaque_encoded (data : bytes) :
  fits 4 (len data) -> xdr_decode_opaque (xdr_opaque data) = Some data.
Proof.
  intros Hfit. unfold xdr_decode_opaque, xdr_opaque.
  pose proof (len_nonneg data) as Hnn.
  pose proof (xdr_pad_length_range (len data)) as Hpad.
  rewrite len_app, len_be_split, len_xdr_padded_bytes.
  destruct (Z.ltb_spec (Z.of_nat 4 + (len data + xdr_pad_length (len data))) 4)
    as [Hlt | _]; [lia|].
  rewrite firstn_length_app by (now rewrite length_be_split).
  rewrite skipn_length_app by (now rewrite length_be_split).
  rewrite be_combine_split by exact Hfit.
  rewrite len_xdr_padded_bytes.
  destruct (Z.ltb_spec (len data + xdr_pad_length (len data)) (len data))
    as [Hlt | _]; [lia|].
  rewrite xdr_padded_bytes_eq. apply f_equal.
  apply firstn_length_app. unfold len. apply Nat2Z.id.
Qed.

(** C6: for every byte sequence [h] of at most 64 bytes, rendering
    [fhandle3] with [handle_data = h] and decoding the result by the XDR
    length-prefix convention (read the 4-byte big-endian length [n], take
    the next [n] bytes) gives back exactly [h], whatever the padding. *)
Theorem fhandle3_roundtrip (name : string) (h : bytes) :
  len h <= 64 ->
  exists bs : bytes,
    render_node (fhandle3 name (Some h)) = Ok bs /\
    xdr_decode_opaque bs = Some h.
Proof.
  intros Hlen.
  assert (Hfit : fits 4 (len (effective_handle (Some h)))).
  { cbn [effective_handle]. unfold fits.
    pose proof (len_nonneg h).
    change (2 ^ (8 * Z.of_nat 4)) with 4294967296. lia. }
  exists (xdr_opaque h). split.
  - now rewrite render_fhandle3 by exact Hfit.
  - now apply xdr_decode_opaque_encoded.
Qed.

(** A 5-byte handle, which takes 3 bytes of padding. *)
Lemma fhandle3_roundtrip_witness :
  let h := [Byte.x01; Byte.x02; Byte.x03; Byte.x04; Byte.x05] in
  len h <= 64 /\
  exists bs : bytes,
    render_node (fhandle3 "fh" (Some h)) = Ok bs /\
    xdr_decode_opaque bs = Some h.
Proof.
  cbv zeta. split.
  - vm_compute. discriminate.
  - apply (fhandle3_roundtrip "fh").
    vm_compute. discriminate.
Defined.

Lemma fits4_intro (v : Z) : 0 <= v < 4294967296 -> fits 4 v.
Proof. intros H. exact H. Qed.

Lemma fits8_intro (v : Z) : 0 <= v < 18446744073709551616 -> fits 8 v.
Proof. intros H. exact H. Qed.

(** C3, as stated, fails: a 65-byte handle is not rejected.  [fhandle3]
    builds its tree, which renders to the length prefix 65, the 65 handle
    bytes and 3 bytes of padding, and [nfs3_getattr] returns a request
    that renders. *)
Lemma overlong_handle_not_rejected :
  let h := bytes_mul [Byte.xaa] 65 in
  64 < len h /\
  render_node (fhandle3 "fh" (Some h))
  = Ok (be_split 4 65 ++ h ++ [Byte.x00; Byte.x00; Byte.x00]) /\
  exists (r : Request) (bs : bytes),
    nfs3_getattr (Some h) = Ok r /\ render r = Ok bs.
Proof.
  cbv zeta. split; [vm_compute; reflexivity|].
  split; [vm_compute; reflexivity|].
  eexists. eexists. split; [reflexivity|].
  vm_compute. reflexivity.
Qed.

(** C3, amended: the builders make no length check.  For every byte
    sequence [h] shorter than 2^32 bytes, those longer than 64 bytes
    included, [fhandle3] builds its tree and every procedure builder that
    takes [handle_data] returns a request, without an error.  The handle is
    encoded in full and not truncated: the tree renders to the 4-byte
    big-endian length of [h], then [h], then zero padding up to a multiple
    of 4 bytes. *)
Theorem fhandle3_no_length_check (name : string) (h : bytes) :
  len h < 2 ^ 32 ->
  fhandle3 name (Some h)
  = Block name
      [ DWord (name ++ "_length") (len h) BIG_ENDIAN (Some true);
        Bytes (name ++ "_data") (xdr_padded_bytes h)
              (len (xdr_padded_bytes h)) (Some true) ] /\
  render_node (fhandle3 name (Some h))
  = Ok (be_split 4 (len h) ++ h
        ++ List.repeat Byte.x00 (Z.to_nat (xdr_pad_length (len h)))) /\
  Forall (fun build => exists r : Request, build (Some h) = Ok r)
         handle_builders.
Proof.
  intros Hlen. split; [reflexivity|]. split.
  - rewrite render_fhandle3.
    + cbn [effective_handle]. unfold xdr_opaque.
      now rewrite xdr_padded_bytes_eq.
    + cbn [effective_handle]. apply fits4_intro.
      pose proof (len_nonneg h). change (2 ^ 32) with 4294967296 in Hlen. lia.
  - unfold handle_builders.
    repeat (apply Forall_cons; [eexists; reflexivity|]).
    apply Forall_nil.
Qed.

(** A handle of 65 bytes. *)
Lemma fhandle3_no_length_check_witness :
  let h := bytes_mul [Byte.xaa] 65 in
  len h < 2 ^ 32 /\
  render_node (fhandle3 "fh" (Some h))
  = Ok (be_split 4 (len h) ++ h
        ++ List.repeat Byte.x00 (Z.to_nat (xdr_pad_length (len h)))).
Proof.
  cbv zeta. split.
  - vm_compute. reflexivity.
  - apply (fhandle3_no_length_check "fh" (bytes_mul [Byte.xaa] 65)).
    vm_compute. reflexivity.
Defined.

(* ===================================================================== *)
(** ** The call envelope *)
(* ===================================================================== *)

Lemma Ok_inj {A : Type} (a b : A) : Ok a = Ok b -> a = b.
Proof. intros H. now injection H. Qed.

Lemma encode_uint_big (field : string) (w : nat) (v : Z) (bs : bytes) :
  encode_uint field w BIG_ENDIAN v = Ok bs -> fits w v /\ bs = be_split w v.
Proof.
  intros H. destruct (encode_uint_ok _ _ _ _ _ H) as [Hfit _].
  rewrite encode_uint_fits in H by exact Hfit.
  split; [exact Hfit | congruence].
Qed.

Lemma serialize_children_app (l1 l2 : list node) (tbl : sizes) :
  serialize_children (l1 ++ l2) tbl
  = '(b1, t1) <- serialize_children l1 tbl ;;
    '(b2, t2) <- serialize_children l2 t1 ;;
    Ok (b1 ++ b2, t2).
Proof.
  revert tbl. induction l1 as [|c l1 IH]; intros tbl;
    cbn [List.app serialize_children].
  - cbn [bind]. destruct (serialize_children l2 tbl) as [[b2 t2]|e];
      reflexivity.
  - destruct (serialize c tbl) as [[b t]|e]; [|reflexivity]. cbn [bind].
    rewrite IH.
    destruct (serialize_children l1 t) as [[b1 t1]|e]; [|reflexivity].
    cbn [bind].
    destruct (serialize_children l2 t1) as [[b2 t2]|e]; [|reflexivity].
    cbn [bind]. now rewrite app_assoc.
Qed.

Lemma rpc_call_request_shape (name : string) (program version procedure : Z)
    (args_children : list node) (auth_type : string) (xid : Z) (r : Request) :
  rpc_call_request name program version procedure args_children auth_type xid
  = Ok r ->
  exists auth_children : list node,
    req_children r
    = [ tcp_record_mark (name ++ "_rpc_message") (name ++ "_record_mark");
        Block (name ++ "_rpc_message")
          (rpc_header_fields name program version procedure xid
           ++ auth_children ++ args_children) ].
Proof.
  unfold rpc_call_request.
  match goal with
  | |- bind ?m _ = _ -> _ => destruct m as [auth_children|e]
  end; cbn [bind]; [|discriminate].
  intros [= <-]. exists auth_children. reflexivity.
Qed.

Lemma rpc_call_request_none (name : string) (program version procedure : Z)
    (args_children : list node) (xid : Z) :
  rpc_call_request name program version procedure args_children "none" xid
  = Ok (mkRequest name
          [ tcp_record_mark (name ++ "_rpc_message") (name ++ "_record_mark");
            Block (name ++ "_rpc_message")
              (rpc_header_fields name program version procedure xid
               ++ auth_none (name ++ "_auth") ++ args_children) ]).
Proof. reflexivity. Qed.

Section Header.

Variables (name : string) (program version procedure xid : Z).

Lemma resolve_rpc_header_inv (tbl : sizes) (bs : bytes) :
  resolve_children tbl
    (rpc_header_fields name program version procedure xid) = Ok bs ->
  bs = rpc_header_bytes program version procedure xid.
Proof.
  unfold rpc_header_fields, rpc_header_bytes.
  cbn [resolve_children resolve].
  repeat match goal with
  | |- context [encode_uint ?f ?w BIG_ENDIAN ?v] =>
      let H := fresh "H" in
      destruct (encode_uint f w BIG_ENDIAN v) eqn:H;
      [apply encode_uint_big in H; destruct H as [_ ->]; cbn [bind]
      |cbn [bind]; discriminate]
  end.
  intros [= <-]. reflexivity.
Qed.

Hypothesis Hxid : fits 4 xid.
Hypothesis Hprogram : fits 4 program.
Hypothesis Hversion : fits 4 version.
Hypothesis Hprocedure : fits 4 procedure.

Lemma resolve_rpc_header (tbl : sizes) :
  resolve_children tbl
    (rpc_header_fields name program version procedure xid)
  = Ok (rpc_header_bytes program version procedure xid).
Proof.
  unfold rpc_header_fields, rpc_header_bytes.
  cbn [resolve_children resolve].
  rewrite !encode_uint_fits
    by first [assumption | apply fits4_intro; cbv; split; congruence].
  cbn [bind]. now rewrite app_nil_r.
Qed.

Lemma serialize_rpc_header (tbl : sizes) :
  serialize_children
    (rpc_header_fields name program version procedure xid) tbl
  = Ok (rpc_header_bytes program version procedure xid, tbl).
Proof.
  unfold rpc_header_fields, rpc_header_bytes.
  cbn [serialize_children serialize].
  rewrite !encode_uint_fits
    by first [assumption | apply fits4_intro; cbv; split; congruence].
  cbn [bind]. now rewrite app_nil_r.
Qed.

End Header.

Lemma resolve_auth_none (tbl : sizes) (name_prefix : string) :
  resolve_children tbl (auth_none name_prefix) = Ok auth_none_bytes.
Proof. reflexivity. Qed.

Lemma serialize_auth_none (name_prefix : string) (tbl : sizes) :
  serialize_children (auth_none name_prefix) tbl = Ok (auth_none_bytes, tbl).
Proof. reflexivity. Qed.

Lemma resolve_tcp_record_mark (tbl : sizes) (block_name name : string)
    (L : Z) :
  map.get tbl block_name = Some L ->
  0 <= L < 2 ^ 31 ->
  resolve tbl (tcp_record_mark block_name name)
  = Ok (be_split 4 (Z.lor 0x80000000 L)).
Proof.
  intros Hget HL. cbn [tcp_record_mark resolve]. unfold resolve_size.
  rewrite Hget. apply encode_uint_fits.
  destruct (last_fragment_bit L HL) as [-> _].
  apply fits4_intro. change (2 ^ 31) with 2147483648 in HL. lia.
Qed.

Lemma resolve_tcp_record_mark_length (tbl : sizes) (block_name name : string)
    (m : bytes) :
  resolve tbl (tcp_record_mark block_name name) = Ok m ->
  List.length m = 4%nat.
Proof.
  cbn [tcp_record_mark resolve]. unfold resolve_size.
  destruct (map.get tbl block_name) as [L|]; [|discriminate].
  intros H. now apply encode_uint_ok in H.
Qed.

Lemma serialize_tcp_record_mark (block_name name : string) (tbl : sizes) :
  serialize (tcp_record_mark block_name name) tbl
  = Ok (List.repeat Byte.x00 4, tbl).
Proof. reflexivity. Qed.

Lemma length_rpc_header_bytes (program version procedure xid : Z) :
  List.length (rpc_header_bytes program version procedure xid) = 24%nat.
Proof. reflexivity. Qed.

(** Rendering a call built with AUTH_NONE whose arguments hold no size
    field: record mark, header, authentication, arguments. *)
Lemma render_rpc_call (name : string) (program version procedure xid : Z)
    (args_children : list node) (args_bytes : bytes) :
  fits 4 xid -> fits 4 program -> fits 4 version -> fits 4 procedure ->
  (forall tbl, exists tbl',
      serialize_children args_children tbl = Ok (args_bytes, tbl')) ->
  (forall tbl, resolve_children tbl args_children = Ok args_bytes) ->
  len (rpc_header_bytes program version procedure xid
       ++ auth_none_bytes ++ args_bytes) < 2 ^ 31 ->
  exists r : Request,
    rpc_call_request name program version procedure args_children "none" xid
    = Ok r /\
    render r
    = Ok (be_split 4
            (Z.lor 0x80000000
               (len (rpc_header_bytes program version procedure xid
                     ++ auth_none_bytes ++ args_bytes)))
          ++ rpc_header_bytes program version procedure xid
          ++ auth_none_bytes ++ args_bytes).
Proof.
  intros Hxid Hprog Hvers Hproc Hser Hres Hlen.
  rewrite rpc_call_request_none. eexists. split; [reflexivity|].
  unfold render, render_children. cbn [req_children].
  cbn [serialize_children]. rewrite serialize_tcp_record_mark. cbn [bind].
  rewrite serialize_Block, serialize_children_app.
  rewrite serialize_rpc_header by assumption. cbn [bind].
  rewrite serialize_children_app, serialize_auth_none. cbn [bind].
  destruct (Hser map.empty) as [tbl' ->]. cbn [bind].
  cbn [resolve_children].
  erewrite resolve_tcp_record_mark;
    [|apply map.get_put_same|split; [apply len_nonneg|exact Hlen]].
  cbn [bind].
  rewrite resolve_Block, resolve_children_app.
  rewrite resolve_rpc_header by assumption. cbn [bind].
  rewrite resolve_children_app, resolve_auth_none. cbn [bind].
  rewrite Hres. cbn [bind]. now rewrite app_nil_r.
Qed.

(** C7: the RPC body that [rpc_call_request] builds renders with its six
    header fields first, as big-endian uint32 values in the order xid,
    msg_type (0, CALL), rpc_version (2), program, version, procedure.  For
    values that fit a uint32 the call renders, and whatever arguments and
    authentication are chosen, a rendered message has these 24 bytes right
    after the record mark: rendering keeps the declaration order. *)
Theorem rpc_header_fields_in_order
    (name : string) (program version procedure xid : Z) :
  fits 4 xid -> fits 4 program -> fits 4 version -> fits 4 procedure ->
  let header :=
    be_split 4 xid ++ be_split 4 0 ++ be_split 4 2
    ++ be_split 4 program ++ be_split 4 version ++ be_split 4 procedure in
  (exists (r : Request) (bs : bytes),
      rpc_call_request name program version procedure [] "none" xid = Ok r /\
      render r = Ok bs /\
      firstn 24 (skipn 4 bs) = header) /\
  (forall (args_children : list node) (auth_type : string)
          (r : Request) (bs : bytes),
      rpc_call_request name program version procedure args_children
        auth_type xid = Ok r ->
      render r = Ok bs ->
      firstn 24 (skipn 4 bs) = header).
Proof.
  intros Hxid Hprog Hvers Hproc. cbv zeta.
  change (be_split 4 xid ++ be_split 4 0 ++ be_split 4 2
          ++ be_split 4 program ++ be_split 4 version
          ++ be_split 4 procedure)
    with (rpc_header_bytes program version procedure xid).
  split.
  - destruct (render_rpc_call name program version procedure xid [] [])
      as [r [Hr Hrender]]; try assumption.
    + intros tbl. exists tbl. reflexivity.
    + reflexivity.
    + vm_compute. reflexivity.
    + exists r. eexists. split; [exact Hr|]. split; [exact Hrender|].
      rewrite skipn_length_app by (now rewrite length_be_split).
      apply firstn_length_app. reflexivity.
  - intros args_children auth_type r bs Hr Hrender.
    destruct (rpc_call_request_shape _ _ _ _ _ _ _ _ Hr) as [auth Hshape].
    unfold render, render_children in Hrender. rewrite Hshape in Hrender.
    destruct (serialize_children _ map.empty) as [[x tbl]|e];
      cbn [bind] in Hrender; [|discriminate].
    cbn [resolve_children] in Hrender.
    destruct (resolve tbl (tcp_record_mark _ _)) as [m|e] eqn:Hm;
      cbn [bind] in Hrender; [|discriminate].
    rewrite resolve_Block, resolve_children_app in Hrender.
    destruct (resolve_children tbl (rpc_header_fields _ _ _ _ _))
      as [hb|e] eqn:Hh; cbn [bind] in Hrender; [|discriminate].
    apply resolve_rpc_header_inv in Hh. subst hb.
    destruct (resolve_children tbl (auth ++ args_children)) as [rest|e];
      cbn [bind] in Hrender; [|discriminate].
    apply Ok_inj in Hrender. subst bs.
    apply resolve_tcp_record_mark_length in Hm.
    rewrite skipn_length_app by (now rewrite Hm).
    rewrite <- app_assoc.
    apply firstn_length_app. reflexivity.
Qed.

(** The header of the NULL call. *)
Lemma rpc_header_fields_in_order_witness :
  fits 4 1 /\ fits 4 PROG_NFS /\ fits 4 NFS_V3 /\ fits 4 NFSPROC3_NULL /\
  exists (r : Request) (bs : bytes),
    rpc_call_request "NFS3-NULL" PROG_NFS NFS_V3 NFSPROC3_NULL [] "none" 1
    = Ok r /\
    render r = Ok bs /\
    firstn 24 (skipn 4 bs)
    = be_split 4 1 ++ be_split 4 0 ++ be_split 4 2
      ++ be_split 4 PROG_NFS ++ be_split 4 NFS_V3
      ++ be_split 4 NFSPROC3_NULL.
Proof.
  assert (H1 : fits 4 1) by (apply fits4_intro; lia).
  assert (H2 : fits 4 PROG_NFS) by (apply fits4_intro; unfold PROG_NFS; lia).
  assert (H3 : fits 4 NFS_V3) by (apply fits4_intro; unfold NFS_V3; lia).
  assert (H4 : fits 4 NFSPROC3_NULL)
    by (apply fits4_intro; unfold NFSPROC3_NULL; lia).
  repeat (split; [assumption|]).
  exact (proj1 (rpc_header_fields_in_order "NFS3-NULL" PROG_NFS NFS_V3
                  NFSPROC3_NULL 1 H1 H2 H3 H4)).
Defined.

(* ===================================================================== *)
(** ** WRITE: count and payload length *)
(* ===================================================================== *)

Lemma len_rpc_header_bytes (program version procedure xid : Z) :
  len (rpc_header_bytes program version procedure xid) = 24.
Proof. reflexivity. Qed.

Lemma len_auth_none_bytes : len auth_none_bytes = 16.
Proof. reflexivity. Qed.

Lemma len_xdr_opaque (data : bytes) :
  len (xdr_opaque data) = 4 + len data + xdr_pad_length (len data).
Proof.
  unfold xdr_opaque. rewrite len_app, len_be_split, len_xdr_padded_bytes.
  lia.
Qed.

(** C4: [nfs3_write] does not compare [count] with the payload.  For every
    [count] that fits a uint32 and every payload [data], whether or not
    [len data] equals [count], the builder returns a request and the
    request renders; in the rendered arguments the count field encodes
    [count] and the length prefix of the opaque data encodes [len data]. *)
Theorem nfs3_write_count_independent (handle_data : option bytes)
    (offset count stable : Z) (data : bytes) :
  fits 8 offset -> fits 4 count -> fits 4 stable ->
  len (effective_handle handle_data) + len data < 2 ^ 30 ->
  let args_bytes :=
    xdr_opaque (effective_handle handle_data)
    ++ be_split 8 offset
    ++ be_split 4 count
    ++ be_split 4 stable
    ++ be_split 4 (len data) ++ xdr_padded_bytes data in
  let body :=
    rpc_header_bytes PROG_NFS NFS_V3 NFSPROC3_WRITE default_xid
    ++ auth_none_bytes ++ args_bytes in
  exists r : Request,
    nfs3_write handle_data offset count stable data = Ok r /\
    render r = Ok (be_split 4 (Z.lor 0x80000000 (len body)) ++ body).
Proof.
  intros Hoffset Hcount Hstable Hlen. cbv zeta.
  pose proof (len_nonneg (effective_handle handle_data)) as Hh0.
  pose proof (len_nonneg data) as Hd0.
  change (2 ^ 30) with 1073741824 in Hlen.
  assert (Hh : fits 4 (len (effective_handle handle_data)))
    by (apply fits4_intro; lia).
  assert (Hd : fits 4 (len data)) by (apply fits4_intro; lia).
  unfold nfs3_write. cbv zeta. unfold default_auth_type.
  apply render_rpc_call.
  - apply fits4_intro. unfold default_xid. lia.
  - apply fits4_intro. unfold PROG_NFS. lia.
  - apply fits4_intro. unfold NFS_V3. lia.
  - apply fits4_intro. unfold NFSPROC3_WRITE. lia.
  - intros tbl. cbn [serialize_children].
    rewrite serialize_fhandle3 by exact Hh. cbn [bind serialize].
    rewrite !encode_uint_fits by assumption. cbn [bind].
    rewrite app_nil_r. eexists. reflexivity.
  - intros tbl. cbn [resolve_children].
    rewrite resolve_fhandle3 by exact Hh. cbn [bind resolve].
    rewrite !encode_uint_fits by assumption. cbn [bind].
    rewrite app_nil_r. reflexivity.
  - rewrite !len_app, len_rpc_header_bytes, len_auth_none_bytes.
    rewrite len_xdr_opaque, !len_be_split, len_xdr_padded_bytes.
    pose proof (xdr_pad_length_range (len (effective_handle handle_data))).
    pose proof (xdr_pad_length_range (len data)).
    change (2 ^ 31) with 2147483648. lia.
Qed.

(** [count = 10] with a payload of 7 bytes. *)
Lemma nfs3_write_count_independent_witness :
  let data := bytes_mul [Byte.x41] 7 in
  fits 8 0 /\ fits 4 10 /\ fits 4 FILE_SYNC /\
  len (effective_handle None) + len data < 2 ^ 30 /\
  10 <> len data /\
  exists r : Request,
    nfs3_write None 0 10 FILE_SYNC data = Ok r /\
    render r
    = Ok (be_split 4 0x80000068
          ++ rpc_header_bytes PROG_NFS NFS_V3 NFSPROC3_WRITE default_xid
          ++ auth_none_bytes
          ++ xdr_opaque (effective_handle None)
          ++ be_split 8 0 ++ be_split 4 10 ++ be_split 4 FILE_SYNC
          ++ be_split 4 7 ++ xdr_padded_bytes data).
Proof.
  cbv zeta.
  assert (H1 : fits 8 0) by (apply fits8_intro; lia).
  assert (H2 : fits 4 10) by (apply fits4_intro; lia).
  assert (H3 : fits 4 FILE_SYNC) by (apply fits4_intro; unfold FILE_SYNC; lia).
  assert (H4 : len (effective_handle None) + len (bytes_mul [Byte.x41] 7)
               < 2 ^ 30) by (vm_compute; reflexivity).
  repeat (split; [assumption|]).
  split; [vm_compute; discriminate|].
  exact (nfs3_write_count_independent None 0 10 FILE_SYNC
           (bytes_mul [Byte.x41] 7) H1 H2 H3 H4).
Defined.

(* ===================================================================== *)
(** ** Size fields depend on lengths only *)
(* ===================================================================== *)

Lemma encode_uint_fits_length (field : string) (w : nat) (e : endianness)
    (v : Z) :
  fits w v ->
  exists bs, encode_uint field w e v = Ok bs /\ List.length bs = w.
Proof.
  intros [Hlo Hhi]. unfold encode_uint.
  apply Z.leb_le in Hlo. apply Z.ltb_lt in Hhi.
  rewrite Hlo, Hhi. cbn [andb]. eexists. split; [reflexivity|].
  destruct e; [apply length_be_split | apply length_le_split].
Qed.

Lemma agree_refl (x : result (bytes * sizes)) : agree x x.
Proof. destruct x as [[b t]|e]; cbn; auto. Qed.

Lemma agree_uint (field : string) (w : nat) (e : endianness) (v v' : Z)
    (tbl : sizes) :
  fits w v -> fits w v' ->
  agree (b <- encode_uint field w e v ;; Ok (b, tbl))
        (b <- encode_uint field w e v' ;; Ok (b, tbl)).
Proof.
  intros Hv Hv'.
  destruct (encode_uint_fits_length field w e v Hv) as [b [-> Hb]].
  destruct (encode_uint_fits_length field w e v' Hv') as [b' [-> Hb']].
  cbn. unfold len. split; [congruence|reflexivity].
Qed.

Lemma agree_children (cs cs' : list node) :
  Forall2 (fun a b => forall tbl, agree (serialize a tbl) (serialize b tbl))
          cs cs' ->
  forall tbl, agree (serialize_children cs tbl) (serialize_children cs' tbl).
Proof.
  induction 1 as [|a b cs cs' Hab _ IH]; intros tbl.
  - cbn. auto.
  - cbn [serialize_children]. specialize (Hab tbl).
    destruct (serialize a tbl) as [[ba ta]|ea],
             (serialize b tbl) as [[bb tb]|eb]; cbn in Hab; try contradiction.
    + destruct Hab as [Hlen <-]. cbn [bind]. specialize (IH ta).
      destruct (serialize_children cs ta) as [[b1 t1]|e1],
               (serialize_children cs' ta) as [[b2 t2]|e2];
        cbn in IH; try contradiction; cbn.
      * destruct IH as [Hlen' <-]. rewrite !len_app. split; congruence.
      * exact IH.
    + cbn. exact Hab.
Qed.

Lemma Forall2_Forall_l {A B : Type} (P : A -> Prop) (R Q : A -> B -> Prop)
    (l : list A) (l' : list B) :
  (forall a b, P a -> R a b -> Q a b) ->
  Forall P l -> Forall2 R l l' -> Forall2 Q l l'.
Proof.
  intros HPRQ HP HR. induction HR as [|a b l l' Hab _ IH].
  - constructor.
  - inversion HP; subst. constructor; auto.
Qed.

Lemma serialize_same_layout (a b : node) :
  same_layout a b -> forall tbl, agree (serialize a tbl) (serialize b tbl).
Proof.
  revert b. induction a as [| | | | |nm cs IH] using node_ind;
    intros b Hab tbl; inversion Hab; subst; try apply agree_refl.
  - cbn [serialize]. now apply agree_uint.
  - cbn [serialize]. now apply agree_uint.
  - cbn. auto.
  - cbn. auto.
  - rewrite !serialize_Block.
    assert (Hcs : agree (serialize_children cs tbl)
                        (serialize_children cs' tbl)).
    { apply agree_children.
      eapply Forall2_Forall_l; [|exact IH|eassumption].
      intros x y Hx Hxy. now apply Hx. }
    destruct (serialize_children cs tbl) as [[b1 t1]|e1],
             (serialize_children cs' tbl) as [[b2 t2]|e2];
      cbn in Hcs; try contradiction; cbn.
    + destruct Hcs as [Hlen <-]. rewrite Hlen. auto.
    + exact Hcs.
Qed.

Lemma serialize_children_same_layout (cs cs' : list node) :
  Forall2 same_layout cs cs' ->
  forall tbl, agree (serialize_children cs tbl) (serialize_children cs' tbl).
Proof.
  intros H. apply agree_children.
  eapply Forall2_impl; [|exact H].
  intros a b Hab. now apply serialize_same_layout.
Qed.

Lemma size_fields_same_layout (tbl : sizes) (a b : node) :
  same_layout a b -> size_fields tbl a = size_fields tbl b.
Proof.
  revert b. induction a as [| | | | |nm cs IH] using node_ind;
    intros b Hab; inversion Hab; subst; try reflexivity.
  cbn [size_fields].
  match goal with H : Forall2 same_layout cs _ |- _ => rename H into Hcs end.
  clear Hab. induction Hcs as [|x y l l' Hxy _ IHl]; [reflexivity|].
  inversion IH; subst. cbn [flat_map]. f_equal; auto.
Qed.

Lemma flat_map_size_fields_same_layout (tbl : sizes) (cs cs' : list node) :
  Forall2 same_layout cs cs' ->
  flat_map (size_fields tbl) cs = flat_map (size_fields tbl) cs'.
Proof.
  induction 1 as [|a b l l' Hab _ IH]; [reflexivity|].
  cbn [flat_map]. f_equal; [now apply size_fields_same_layout | exact IH].
Qed.

(** C8: replacing the values of leaf fields by values of the same byte
    length leaves the rendered output of every size field unchanged; in
    particular, for a request built by a call builder, the 4 bytes of the
    TCP record mark at the start of the rendered message are the same. *)
Theorem size_outputs_frame (r r' : Request) :
  Forall2 same_layout (req_children r) (req_children r') ->
  size_outputs (req_children r) = size_outputs (req_children r') /\
  (forall (name : string) (program version procedure : Z)
          (args_children : list node) (auth_type : string) (xid : Z)
          (bs bs' : bytes),
      rpc_call_request name program version procedure args_children
        auth_type xid = Ok r ->
      render r = Ok bs -> render r' = Ok bs' ->
      firstn 4 bs = firstn 4 bs').
Proof.
  intros Hsame.
  pose proof (serialize_children_same_layout _ _ Hsame map.empty) as Hagree.
  split.
  - unfold size_outputs.
    destruct (serialize_children (req_children r) map.empty) as [[b t]|e],
             (serialize_children (req_children r') map.empty) as [[b' t']|e'];
      cbn in Hagree; try contradiction; cbn [bind].
    + destruct Hagree as [_ <-]. f_equal.
      now apply flat_map_size_fields_same_layout.
    + now f_equal.
  - intros name program version procedure args_children auth_type xid bs bs'
           Hr Hrender Hrender'.
    destruct (rpc_call_request_shape _ _ _ _ _ _ _ _ Hr) as [auth Hshape].
    unfold render, render_children in Hrender, Hrender'.
    destruct (serialize_children (req_children r) map.empty) as [[b t]|e];
      cbn [bind] in Hrender; [|discriminate].
    destruct (serialize_children (req_children r') map.empty) as [[b' t']|e'];
      cbn [bind] in Hrender'; [|discriminate].
    cbn in Hagree. destruct Hagree as [_ <-].
    rewrite Hshape in Hsame, Hrender.
    destruct (req_children r') as [|m' l'];
      inversion Hsame as [|? ? ? ? Hm Hl]; subst.
    assert (Hmark : m' = tcp_record_mark (name ++ "_rpc_message")
                                         (name ++ "_record_mark")).
    { unfold tcp_record_mark in *. inversion Hm; subst. reflexivity. }
    subst m'.
    rewrite resolve_children_cons in Hrender, Hrender'.
    destruct (resolve t (tcp_record_mark _ _)) as [mk|e] eqn:Hmk;
      cbn [bind] in Hrender, Hrender'; [|discriminate].
    apply resolve_tcp_record_mark_length in Hmk.
    destruct (resolve_children t [_]) as [rest|e];
      cbn [bind] in Hrender; [|discriminate].
    destruct (resolve_children t l') as [rest'|e];
      cbn [bind] in Hrender'; [|discriminate].
    apply Ok_inj in Hrender. apply Ok_inj in Hrender'. subst bs bs'.
    rewrite !firstn_length_app by (now rewrite Hmk). reflexivity.
Qed.

(** The NULL call with its transaction id changed from 1 to 2. *)
Lemma size_outputs_frame_witness :
  exists r r' : Request,
    nfs3_null = Ok r /\
    rpc_call_request "NFS3-NULL" PROG_NFS NFS_V3 NFSPROC3_NULL [] "none" 2
    = Ok r' /\
    Forall2 same_layout (req_children r) (req_children r') /\
    size_outputs (req_children r) = size_outputs (req_children r').
Proof.
  eexists. eexists.
  split; [reflexivity|]. split; [reflexivity|].
  assert (Hsame :
    Forall2 same_layout
      [ tcp_record_mark "NFS3-NULL_rpc_message" "NFS3-NULL_record_mark";
        Block "NFS3-NULL_rpc_message"
          (rpc_header_fields "NFS3-NULL" PROG_NFS NFS_V3 NFSPROC3_NULL 1
           ++ auth_none "NFS3-NULL_auth") ]
      [ tcp_record_mark "NFS3-NULL_rpc_message" "NFS3-NULL_record_mark";
        Block "NFS3-NULL_rpc_message"
          (rpc_header_fields "NFS3-NULL" PROG_NFS NFS_V3 NFSPROC3_NULL 2
           ++ auth_none "NFS3-NULL_auth") ]).
  { apply Forall2_cons; [apply same_refl|].
    apply Forall2_cons; [|apply Forall2_nil].
    apply same_Block. cbn [rpc_header_fields auth_none List.app].
    repeat first
      [ apply Forall2_nil
      | apply Forall2_cons;
        [first [apply same_refl
               |apply same_DWord; apply fits4_intro; lia]|] ]. }
  split; [exact Hsame|].
  exact (proj1 (size_outputs_frame
                  (mkRequest "NFS3-NULL" _) (mkRequest "NFS3-NULL" _) Hsame)).
Defined.

(* ===================================================================== *)
(** ** More on XDR padding *)
(* ===================================================================== *)

(** X1: for every integer [n], negative ones included, [xdr_pad_length n]
    is the least non-negative [k] for which [n + k] is a multiple of 4; it
    is 0 exactly when [n] is a multiple of 4 already, and it depends on [n]
    modulo 4 only. *)
Theorem xdr_pad_length_least (n : Z) :
  0 <= xdr_pad_length n < 4 /\
  (n + xdr_pad_length n) mod 4 = 0 /\
  (forall k : Z, 0 <= k -> (n + k) mod 4 = 0 -> xdr_pad_length n <= k) /\
  (xdr_pad_length n = 0 <-> n mod 4 = 0) /\
  xdr_pad_length (n + 4) = xdr_pad_length n.
Proof.
  pose proof (Z.mod_pos_bound n 4 ltac:(lia)) as Hn.
  assert (Hpad : xdr_pad_length n = (4 - n mod 4) mod 4) by reflexivity.
  split; [apply xdr_pad_length_range|].
  split; [apply xdr_pad_length_aligned|].
  split; [|split].
  - intros k Hk Hmod.
    rewrite Hpad.
    destruct (Z.eq_dec (n mod 4) 0) as [H0 | H0].
    + rewrite H0. cbn. exact Hk.
    + rewrite Z.mod_small by lia.
      rewrite Z.add_mod in Hmod by lia.
      pose proof (Z.mod_pos_bound k 4 ltac:(lia)) as Hk4.
      assert (k mod 4 <= k) by (apply Z.mod_le; lia).
      assert (Hsum : n mod 4 + k mod 4 = 4).
      { destruct (Z.eq_dec (n mod 4 + k mod 4) 4) as [|Hne]; [assumption|].
        exfalso.
        destruct (Z_lt_le_dec (n mod 4 + k mod 4) 4) as [Hlt | Hge].
        - rewrite Z.mod_small in Hmod by lia. lia.
        - replace (n mod 4 + k mod 4)
            with (n mod 4 + k mod 4 - 4 + 1 * 4) in Hmod by lia.
          rewrite Z.mod_add in Hmod by lia.
          rewrite Z.mod_small in Hmod by lia. lia. }
      lia.
  - rewrite Hpad. split; intros H.
    + destruct (Z.eq_dec (n mod 4) 0) as [H0 | H0]; [exact H0|].
      rewrite Z.mod_small in H by lia. lia.
    + rewrite H. reflexivity.
  - unfold xdr_pad_length.
    replace (n + 4) with (n + 1 * 4) by lia.
    now rewrite Z.mod_add by lia.
Qed.

Lemma xdr_padded_bytes_aligned_id (b : bytes) :
  len b mod 4 = 0 -> xdr_padded_bytes b = b.
Proof.
  intros H. rewrite xdr_padded_bytes_eq.
  unfold xdr_pad_length. rewrite H. cbn. apply app_nil_r.
Qed.

(** X2: padding is idempotent and adds at most 3 bytes: a byte string whose
    length is a multiple of 4 is returned unchanged, and padding a padded
    string changes nothing. *)
Theorem xdr_padded_bytes_idempotent (b : bytes) :
  xdr_padded_bytes (xdr_padded_bytes b) = xdr_padded_bytes b /\
  (len b mod 4 = 0 <-> xdr_padded_bytes b = b) /\
  len b <= len (xdr_padded_bytes b) <= len b + 3.
Proof.
  pose proof (xdr_pad_length_range (len b)) as Hpad.
  split; [|split].
  - apply xdr_padded_bytes_aligned_id.
    rewrite len_xdr_padded_bytes. apply xdr_pad_length_aligned.
  - split; [apply xdr_padded_bytes_aligned_id|].
    intros H. rewrite <- H, len_xdr_padded_bytes.
    apply xdr_pad_length_aligned.
  - rewrite len_xdr_padded_bytes. lia.
Qed.

(* ===================================================================== *)
(** ** Opaque values are self-delimiting *)
(* ===================================================================== *)

Lemma length_xdr_padded_bytes (data : bytes) :
  List.length (xdr_padded_bytes data)
  = Z.to_nat (len data + xdr_pad_length (len data)).
Proof.
  rewrite <- len_xdr_padded_bytes. unfold len. now rewrite Nat2Z.id.
Qed.

Lemma xdr_read_opaque_encoded (data rest : bytes) :
  fits 4 (len data) ->
  xdr_read_opaque (xdr_opaque data ++ rest) = Some (data, rest).
Proof.
  intros Hfit. unfold xdr_read_opaque, xdr_opaque.
  pose proof (len_nonneg data) as Hnn.
  pose proof (len_nonneg rest) as Hrest.
  pose proof (xdr_pad_length_range (len data)) as Hpad.
  rewrite <- app_assoc.
  rewrite !len_app, len_be_split, len_xdr_padded_bytes.
  destruct (Z.ltb_spec
              (Z.of_nat 4 + (len data + xdr_pad_length (len data) + len rest))
              4) as [Hlt | _]; [lia|].
  rewrite firstn_length_app by (now rewrite length_be_split).
  rewrite skipn_length_app by (now rewrite length_be_split).
  rewrite be_combine_split by exact Hfit.
  rewrite len_app, len_xdr_padded_bytes.
  destruct (Z.ltb_spec (len data + xdr_pad_length (len data) + len rest)
                       (len data + xdr_pad_length (len data)))
    as [Hlt | _]; [lia|].
  rewrite (skipn_length_app (xdr_padded_bytes data) rest)
    by (symmetry; apply length_xdr_padded_bytes).
  rewrite xdr_padded_bytes_eq, <- app_assoc.
  rewrite firstn_length_app by (unfold len; apply Nat2Z.id).
  reflexivity.
Qed.

Lemma fhandle3_opaque_block (name : string) (handle_data : option bytes) :
  fhandle3 name handle_data
  = opaque_block name (effective_handle handle_data).
Proof. destruct handle_data; reflexivity. Qed.

Lemma filename3_opaque_block (name : string) (filename : str) :
  filename3 name filename
  = (name_bytes <- encode_utf8 filename ;; Ok (opaque_block name name_bytes)).
Proof. reflexivity. Qed.

Lemma serialize_opaque_block (name : string) (data : bytes) (tbl : sizes) :
  fits 4 (len data) ->
  serialize (opaque_block name data) tbl
  = Ok (xdr_opaque data, map.put tbl name (len (xdr_opaque data))).
Proof.
  intros Hfit. unfold opaque_block. rewrite serialize_Block.
  cbn [serialize_children serialize].
  rewrite encode_uint_fits by exact Hfit.
  cbn [bind]. rewrite app_nil_r. reflexivity.
Qed.

Lemma resolve_opaque_block (tbl : sizes) (name : string) (data : bytes) :
  fits 4 (len data) ->
  resolve tbl (opaque_block name data) = Ok (xdr_opaque data).
Proof.
  intros Hfit. unfold opaque_block. rewrite resolve_Block.
  cbn [resolve_children resolve].
  rewrite encode_uint_fits by exact Hfit.
  cbn [bind]. rewrite app_nil_r. reflexivity.
Qed.

Lemma render_opaque_block (name : string) (data : bytes) :
  fits 4 (len data) ->
  render_node (opaque_block name data) = Ok (xdr_opaque data).
Proof.
  intros Hfit. unfold render_node, render_children.
  cbn [serialize_children]. rewrite serialize_opaque_block by exact Hfit.
  cbn [bind resolve_children]. rewrite resolve_opaque_block by exact Hfit.
  cbn [bind]. now rewrite app_nil_r.
Qed.

Lemma len_xdr_opaque_aligned (data : bytes) : len (xdr_opaque data) mod 4 = 0.
Proof.
  rewrite len_xdr_opaque.
  replace (4 + len data + xdr_pad_length (len data))
    with (len data + xdr_pad_length (len data) + 1 * 4) by lia.
  rewrite Z.mod_add by lia. apply xdr_pad_length_aligned.
Qed.

(** X3: [filename3] encodes the name as UTF-8 and wraps the bytes as an
    XDR string.  For every name that UTF-8 can encode (to fewer than 2^32
    bytes) the block renders to a multiple of 4 bytes, and a receiver that
    reads one opaque off the rendered bytes, followed by anything, gets
    exactly the encoded name and is left with what followed.  The length
    and the padding are those of the encoded bytes, not of the code
    points. *)
Theorem filename3_roundtrip (name : string) (filename : str)
    (name_bytes rest : bytes) :
  encode_utf8 filename = Ok name_bytes ->
  len name_bytes < 2 ^ 32 ->
  exists (blk : node) (bs : bytes),
    filename3 name filename = Ok blk /\
    render_node blk = Ok bs /\
    bs = be_split 4 (len name_bytes) ++ xdr_padded_bytes name_bytes /\
    len bs mod 4 = 0 /\
    xdr_read_opaque (bs ++ rest) = Some (name_bytes, rest).
Proof.
  intros Henc Hlen.
  assert (Hfit : fits 4 (len name_bytes)).
  { apply fits4_intro. pose proof (len_nonneg name_bytes).
    change (2 ^ 32) with 4294967296 in Hlen. lia. }
  exists (opaque_block name name_bytes), (xdr_opaque name_bytes).
  split; [rewrite filename3_opaque_block, Henc; reflexivity|].
  split; [now apply render_opaque_block|].
  split; [reflexivity|].
  split; [apply len_xdr_opaque_aligned|].
  now apply xdr_read_opaque_encoded.
Qed.

(** The two-code-point name "é!" takes 3 bytes and 1 byte of padding. *)
Lemma filename3_roundtrip_witness :
  let filename := [0xE9; 0x21] in
  let name_bytes := [Byte.xc3; Byte.xa9; Byte.x21] in
  encode_utf8 filename = Ok name_bytes /\
  len name_bytes < 2 ^ 32 /\
  exists (blk : node) (bs : bytes),
    filename3 "f" filename = Ok blk /\
    render_node blk = Ok bs /\
    bs = be_split 4 (len name_bytes) ++ xdr_padded_bytes name_bytes /\
    len bs mod 4 = 0 /\
    xdr_read_opaque (bs ++ [Byte.xff]) = Some (name_bytes, [Byte.xff]).
Proof.
  cbv zeta.
  assert (H1 : encode_utf8 [0xE9; 0x21] = Ok [Byte.xc3; Byte.xa9; Byte.x21])
    by (vm_compute; reflexivity).
  assert (H2 : len [Byte.xc3; Byte.xa9; Byte.x21] < 2 ^ 32)
    by (vm_compute; reflexivity).
  split; [exact H1|]. split; [exact H2|].
  exact (filename3_roundtrip "f" [0xE9; 0x21] _ [Byte.xff] H1 H2).
Defined.

(* ===================================================================== *)
(** ** Names that cannot be encoded *)
(* ===================================================================== *)



(* ===================================================================== *)
(** ** Directory operations *)
(* ===================================================================== *)

Lemma fits4_len (b : bytes) : len b < 2 ^ 32 -> fits 4 (len b).
Proof.
  intros H. apply fits4_intro. pose proof (len_nonneg b).
  change (2 ^ 32) with 4294967296 in H. lia.
Qed.

Lemma dirop3_tree (name : string) (handle_data : option bytes)
    (filename : str) (name_bytes : bytes) :
  encode_utf8 filename = Ok name_bytes ->
  dirop3 name handle_data filename
  = Ok (Block name
          [ opaque_block (name ++ "_dir_handle")
              (effective_handle handle_data);
            opaque_block (name ++ "_name") name_bytes ]).
Proof.
  intros Henc. unfold dirop3.
  rewrite filename3_opaque_block, Henc, fhandle3_opaque_block. reflexivity.
Qed.

Lemma serialize_dirop (name : string) (h nb : bytes) (tbl : sizes) :
  fits 4 (len h) -> fits 4 (len nb) ->
  exists tbl',
    serialize
      (Block name [ opaque_block (name ++ "_dir_handle") h;
                    opaque_block (name ++ "_name") nb ]) tbl
    = Ok (xdr_opaque h ++ xdr_opaque nb, tbl').
Proof.
  intros Hh Hnb. rewrite serialize_Block. cbn [serialize_children].
  rewrite serialize_opaque_block by exact Hh. cbn [bind].
  rewrite serialize_opaque_block by exact Hnb. cbn [bind].
  rewrite app_nil_r. eexists. reflexivity.
Qed.

Lemma resolve_dirop (tbl : sizes) (name : string) (h nb : bytes) :
  fits 4 (len h) -> fits 4 (len nb) ->
  resolve tbl
    (Block name [ opaque_block (name ++ "_dir_handle") h;
                  opaque_block (name ++ "_name") nb ])
  = Ok (xdr_opaque h ++ xdr_opaque nb).
Proof.
  intros Hh Hnb. rewrite resolve_Block. cbn [resolve_children].
  rewrite !resolve_opaque_block by assumption. cbn [bind].
  now rewrite app_nil_r.
Qed.

(** X5: [dirop3] renders the directory handle and then the name, each as
    a self-delimiting XDR opaque: the result is a multiple of 4 bytes long,
    and a receiver reading two opaques in turn recovers exactly the handle
    bytes, then the UTF-8 bytes of the name, and is left with whatever
    followed the directory operation. *)
Theorem dirop3_reads_back (name : string) (handle_data : option bytes)
    (filename : str) (name_bytes rest : bytes) :
  encode_utf8 filename = Ok name_bytes ->
  len (effective_handle handle_data) < 2 ^ 32 ->
  len name_bytes < 2 ^ 32 ->
  exists (d : node) (bs after_handle : bytes),
    dirop3 name handle_data filename = Ok d /\
    render_node d = Ok bs /\
    len bs mod 4 = 0 /\
    xdr_read_opaque (bs ++ rest)
    = Some (effective_handle handle_data, after_handle) /\
    xdr_read_opaque after_handle = Some (name_bytes, rest).
Proof.
  intros Henc Hh Hnb.
  apply fits4_len in Hh. apply fits4_len in Hnb.
  eexists. exists (xdr_opaque (effective_handle handle_data)
                   ++ xdr_opaque name_bytes).
  exists (xdr_opaque name_bytes ++ rest).
  split; [apply dirop3_tree; exact Henc|].
  split.
  { unfold render_node, render_children. cbn [serialize_children].
    destruct (serialize_dirop name (effective_handle handle_data) name_bytes
                map.empty Hh Hnb) as [tbl' ->].
    cbn [bind resolve_children].
    rewrite resolve_dirop by assumption. cbn [bind].
    now rewrite app_nil_r. }
  split.
  { rewrite len_app, Z.add_mod, !len_xdr_opaque_aligned by lia.
    reflexivity. }
  split.
  - rewrite <- app_assoc. now apply xdr_read_opaque_encoded.
  - now apply xdr_read_opaque_encoded.
Qed.

(** A 5-byte handle and the name "ab", followed by one more byte. *)
Lemma dirop3_reads_back_witness :
  let h := [Byte.x01; Byte.x02; Byte.x03; Byte.x04; Byte.x05] in
  let nb := [Byte.x61; Byte.x62] in
  encode_utf8 (str_of_string "ab") = Ok nb /\
  len (effective_handle (Some h)) < 2 ^ 32 /\
  len nb < 2 ^ 32 /\
  exists (d : node) (bs after_handle : bytes),
    dirop3 "d" (Some h) (str_of_string "ab") = Ok d /\
    render_node d = Ok bs /\
    len bs mod 4 = 0 /\
    xdr_read_opaque (bs ++ [Byte.xff]) = Some (h, after_handle) /\
    xdr_read_opaque after_handle = Some (nb, [Byte.xff]).
Proof.
  cbv zeta.
  assert (H1 : encode_utf8 (str_of_string "ab") = Ok [Byte.x61; Byte.x62])
    by (vm_compute; reflexivity).
  assert (H2 : len (effective_handle
                      (Some [Byte.x01; Byte.x02; Byte.x03; Byte.x04;
                             Byte.x05])) < 2 ^ 32)
    by (vm_compute; reflexivity).
  assert (H3 : len [Byte.x61; Byte.x62] < 2 ^ 32) by (vm_compute; reflexivity).
  split; [exact H1|]. split; [exact H2|]. split; [exact H3|].
  exact (dirop3_reads_back "d" _ _ _ [Byte.xff] H1 H2 H3).
Defined.

(* ===================================================================== *)
(** ** The two call builders *)
(* ===================================================================== *)

(** X6: [rpc_call_block] and [rpc_call_request] agree for every input:
    the block builder returns exactly the children of the request the
    request builder returns (which carries the given name), and fails with
    the same error when that one fails. *)
Theorem rpc_call_block_is_request_children
    (name : string) (program version procedure : Z)
    (args_children : list node) (auth_type : string) (xid : Z) :
  rpc_call_block name program version procedure args_children auth_type xid
  = (r <- rpc_call_request name program version procedure args_children
            auth_type xid ;;
     Ok (req_children r)) /\
  (forall r,
      rpc_call_request name program version procedure args_children
        auth_type xid = Ok r ->
      req_name r = name).
Proof.
  unfold rpc_call_block, rpc_call_request.
  destruct (String.eqb auth_type "sys").
  - destruct (auth_sys_block _ _ _ _) as [a|e]; cbn [bind].
    + split; [reflexivity|]. now intros r [= <-].
    + split; [reflexivity|]. discriminate.
  - cbn [bind]. split; [reflexivity|]. now intros r [= <-].
Qed.

(* ===================================================================== *)
(** ** The record mark frames the message *)
(* ===================================================================== *)

Lemma resolve_children_serialize (tbl : sizes) (cs : list node) :
  Forall (fun n => forall tbl0 b, resolve tbl n = Ok b ->
            exists b' t', serialize n tbl0 = Ok (b', t') /\ len b' = len b)
         cs ->
  forall tbl0 b, resolve_children tbl cs = Ok b ->
    exists b' t', serialize_children cs tbl0 = Ok (b', t') /\ len b' = len b.
Proof.
  induction 1 as [|c cs Hc _ IH]; intros tbl0 b.
  - cbn. intros [= <-]. eexists. eexists. split; reflexivity.
  - rewrite resolve_children_cons.
    destruct (resolve tbl c) as [b1|e] eqn:H1; cbn [bind]; [|discriminate].
    destruct (resolve_children tbl cs) as [b2|e] eqn:H2; cbn [bind];
      [|discriminate].
    intros Hb. apply Ok_inj in Hb. subst b.
    destruct (Hc tbl0 b1 eq_refl) as [b1' [t1 [Hs1 Hl1]]].
    destruct (IH t1 b2 eq_refl) as [b2' [t2 [Hs2 Hl2]]].
    cbn [serialize_children]. rewrite Hs1. cbn [bind]. rewrite Hs2.
    cbn [bind]. eexists. eexists. split; [reflexivity|].
    rewrite !len_app. congruence.
Qed.

(** The two phases of rendering produce byte strings of the same length. *)
Lemma resolve_serialize (tbl : sizes) (n : node) :
  forall tbl0 b, resolve tbl n = Ok b ->
    exists b' t', serialize n tbl0 = Ok (b', t') /\ len b' = len b.
Proof.
  induction n as [nm v e f|nm v e f|nm v s f|nm v|nm t w e m f|nm cs IH]
    using node_ind; intros tbl0 b.
  - cbn [resolve serialize]. intros ->. cbn [bind].
    eexists. eexists. split; reflexivity.
  - cbn [resolve serialize]. intros ->. cbn [bind].
    eexists. eexists. split; reflexivity.
  - cbn. intros [= <-]. eexists. eexists. split; reflexivity.
  - cbn. intros [= <-]. eexists. eexists. split; reflexivity.
  - cbn [resolve serialize]. unfold resolve_size.
    destruct (map.get tbl t) as [l|]; [|discriminate].
    intros Hb. apply encode_uint_ok in Hb. destruct Hb as [_ Hb].
    eexists. eexists. split; [reflexivity|].
    unfold len. now rewrite repeat_length, Hb.
  - rewrite resolve_Block, serialize_Block. intros Hb.
    destruct (resolve_children_serialize tbl cs IH tbl0 b Hb)
      as [b' [t' [Hs Hl]]].
    rewrite Hs. cbn [bind]. eexists. eexists. split; [reflexivity|].
    exact Hl.
Qed.

(** X7: whatever the arguments and the authentication, when a request
    built by [rpc_call_request] renders, its first 4 bytes are the
    big-endian encoding of [0x80000000 | (n - 4)] with [n] the length of
    the whole rendered message: the record mark has the last-fragment bit
    set and counts exactly the bytes that follow it. *)
Theorem record_mark_frames_message
    (name : string) (program version procedure : Z)
    (args_children : list node) (auth_type : string) (xid : Z)
    (r : Request) (bs : bytes) :
  rpc_call_request name program version procedure args_children auth_type xid
  = Ok r ->
  render r = Ok bs ->
  4 <= len bs /\
  firstn 4 bs = be_split 4 (Z.lor 0x80000000 (len bs - 4)) /\
  be_combine (firstn 4 bs) = Z.lor 0x80000000 (len bs - 4) /\
  Z.testbit (be_combine (firstn 4 bs)) 31 = true.
Proof.
  intros Hr Hrender.
  destruct (rpc_call_request_shape _ _ _ _ _ _ _ _ Hr) as [auth Hshape].
  unfold render, render_children in Hrender. rewrite Hshape in Hrender.
  cbn [serialize_children] in Hrender.
  rewrite serialize_tcp_record_mark in Hrender. cbn [bind] in Hrender.
  rewrite serialize_Block in Hrender.
  destruct (serialize_children _ map.empty) as [[b tbl']|e] eqn:Hser;
    cbn [bind] in Hrender; [|discriminate].
  rewrite resolve_children_cons in Hrender.
  cbn [tcp_record_mark resolve] in Hrender. unfold resolve_size in Hrender.
  rewrite map.get_put_same in Hrender.
  destruct (encode_uint _ 4 BIG_ENDIAN _) as [m|e] eqn:Hm;
    cbn [bind] in Hrender; [|discriminate].
  apply encode_uint_big in Hm. destruct Hm as [Hfit ->].
  rewrite resolve_children_cons in Hrender.
  destruct (resolve _ (Block _ _)) as [body|e] eqn:Hbody;
    cbn [bind resolve_children] in Hrender; [|discriminate].
  apply Ok_inj in Hrender. subst bs.
  destruct (resolve_serialize _ _ map.empty body Hbody) as [b' [t' [Hs Hl]]].
  rewrite serialize_Block, Hser in Hs. cbn [bind] in Hs.
  apply Ok_inj in Hs. injection Hs as <- _.
  rewrite app_nil_r, len_app, len_be_split.
  replace (Z.of_nat 4 + len body - 4) with (len b) by lia.
  pose proof (len_nonneg body).
  split; [lia|].
  rewrite firstn_length_app by (now rewrite length_be_split).
  split; [reflexivity|].
  rewrite be_combine_split by exact Hfit.
  split; [reflexivity|].
  rewrite Z.lor_spec. reflexivity.
Qed.

(** A LOOKUP call with AUTH_SYS and a name that holds U+00EB. *)
Lemma record_mark_frames_message_witness :
  exists (what : node) (r : Request) (bs : bytes),
    dirop3 "w" None [0x74; 0xEB; 0x73; 0x74] = Ok what /\
    rpc_call_request "L" PROG_NFS NFS_V3 NFSPROC3_LOOKUP [what] "sys" 7
    = Ok r /\
    render r = Ok bs /\
    4 <= len bs /\
    firstn 4 bs = be_split 4 (Z.lor 0x80000000 (len bs - 4)) /\
    be_combine (firstn 4 bs) = Z.lor 0x80000000 (len bs - 4) /\
    Z.testbit (be_combine (firstn 4 bs)) 31 = true.
Proof.
  eexists. eexists. eexists.
  split; [reflexivity|].
  match goal with
  | |- ?A /\ ?B /\ _ =>
      assert (H1 : A) by reflexivity;
      assert (H2 : B) by (vm_compute; reflexivity)
  end.
  split; [exact H1|]. split; [exact H2|].
  exact (record_mark_frames_message _ _ _ _ _ _ _ _ _ H1 H2).
Defined.

(* ===================================================================== *)
(** ** AUTH_SYS *)
(* ===================================================================== *)

Lemma append_inv_head (s a b : string) :
  (s ++ a)%string = (s ++ b)%string -> a = b.
Proof.
  induction s as [|c s IH]; cbn; [trivial|].
  intros [= H]. now apply IH.
Qed.

Lemma append_empty_r (s : string) : (s ++ "")%string = s.
Proof. induction s as [|c s IH]; cbn; [reflexivity|]. now rewrite IH. Qed.

Lemma append_assoc (s a b : string) :
  ((s ++ a) ++ b)%string = (s ++ (a ++ b))%string.
Proof. induction s as [|c s IH]; cbn; [reflexivity|]. now rewrite IH. Qed.

Lemma cred_body_name_fresh (name : string) :
  (name ++ "_cred_body")%string <> name.
Proof.
  intros H. rewrite <- (append_empty_r name) in H at 2.
  apply append_inv_head in H. discriminate.
Qed.

Lemma auth_sys_block_tree (name : string) (machine_name : str) (uid gid : Z) :
  auth_sys_block name machine_name uid gid
  = (name_bytes <- encode_utf8 machine_name ;;
     Ok (auth_sys_tree name name_bytes uid gid)).
Proof. reflexivity. Qed.

Lemma len_auth_sys_cred_bytes (nb : bytes) (uid gid : Z) :
  len (auth_sys_cred_bytes nb uid gid)
  = 20 + len nb + xdr_pad_length (len nb).
Proof.
  unfold auth_sys_cred_bytes.
  rewrite !len_app, !len_be_split, len_xdr_padded_bytes. lia.
Qed.

Section AuthSys.

Variables (name : string) (nb : bytes) (uid gid : Z).
Hypothesis Hnb : len nb < 2 ^ 31.
Hypothesis Huid : fits 4 uid.
Hypothesis Hgid : fits 4 gid.

Lemma fits_auth_sys_lengths :
  fits 4 (len nb) /\ fits 4 (len (auth_sys_cred_bytes nb uid gid)).
Proof.
  pose proof (len_nonneg nb).
  pose proof (xdr_pad_length_range (len nb)).
  change (2 ^ 31) with 2147483648 in Hnb.
  split; apply fits4_intro; [lia|].
  rewrite len_auth_sys_cred_bytes. lia.
Qed.

Lemma serialize_auth_sys_tree (tbl : sizes) :
  exists b : bytes,
    serialize (auth_sys_tree name nb uid gid) tbl
    = Ok (b,
          map.put
            (map.put tbl (name ++ "_cred_body")%string
                     (len (auth_sys_cred_bytes nb uid gid)))
            name (len b)) /\
    len b = len (auth_sys_bytes nb uid gid).
Proof.
  destruct fits_auth_sys_lengths as [Hn _].
  unfold auth_sys_tree. cbn [serialize].
  repeat (rewrite encode_uint_fits
            by first [assumption | apply fits4_intro; cbv; split; congruence];
          cbn [bind]).
  rewrite !app_nil_r. eexists. split; [reflexivity|].
  unfold auth_sys_bytes. rewrite !len_app, !len_be_split.
  rewrite len_auth_sys_cred_bytes, len_xdr_padded_bytes.
  change (len (repeat Byte.x00 4)) with 4. lia.
Qed.

Lemma resolve_auth_sys_tree (tbl : sizes) :
  map.get tbl (name ++ "_cred_body")%string
  = Some (len (auth_sys_cred_bytes nb uid gid)) ->
  resolve tbl (auth_sys_tree name nb uid gid)
  = Ok (auth_sys_bytes nb uid gid).
Proof.
  intros Hget. destruct fits_auth_sys_lengths as [Hn Hc].
  unfold auth_sys_tree. cbn [resolve]. unfold resolve_size. rewrite Hget.
  repeat (rewrite encode_uint_fits
            by first [assumption | apply fits4_intro; cbv; split; congruence];
          cbn [bind]).
  rewrite !app_nil_r. reflexivity.
Qed.

End AuthSys.

(** X8: for every machine name that UTF-8 encodes (to fewer than 2^31
    bytes) and every uid and gid that fit a uint32, [auth_sys_block]
    builds a block that renders to: flavor 1, the credential length, the
    credential body (stamp 0, the machine name as an XDR string, uid, gid,
    an empty gid list), then an AUTH_NONE verifier.  The length field holds
    exactly the byte length of the credential body, 20 + the padded name
    length, and the whole block is a multiple of 4 bytes long. *)
Theorem auth_sys_block_layout (name : string) (machine_name : str)
    (uid gid : Z) (name_bytes : bytes) :
  encode_utf8 machine_name = Ok name_bytes ->
  len name_bytes < 2 ^ 31 ->
  fits 4 uid -> fits 4 gid ->
  let cred :=
    be_split 4 0 ++ be_split 4 (len name_bytes)
    ++ xdr_padded_bytes name_bytes
    ++ be_split 4 uid ++ be_split 4 gid ++ be_split 4 0 in
  exists (a : node) (bs : bytes),
    auth_sys_block name machine_name uid gid = Ok a /\
    render_node a = Ok bs /\
    bs = be_split 4 AUTH_SYS ++ be_split 4 (len cred) ++ cred
         ++ be_split 4 AUTH_NONE ++ be_split 4 0 /\
    len cred = 20 + len (xdr_padded_bytes name_bytes) /\
    len bs mod 4 = 0.
Proof.
  intros Henc Hnb Huid Hgid. cbv zeta.
  change (be_split 4 0 ++ be_split 4 (len name_bytes)
          ++ xdr_padded_bytes name_bytes
          ++ be_split 4 uid ++ be_split 4 gid ++ be_split 4 0)
    with (auth_sys_cred_bytes name_bytes uid gid).
  exists (auth_sys_tree name name_bytes uid gid).
  exists (auth_sys_bytes name_bytes uid gid).
  split; [rewrite auth_sys_block_tree, Henc; reflexivity|].
  split.
  { unfold render_node, render_children. cbn [serialize_children].
    destruct (serialize_auth_sys_tree name name_bytes uid gid Hnb Huid Hgid
                map.empty) as [b [-> _]].
    cbn [bind resolve_children].
    rewrite resolve_auth_sys_tree; try assumption.
    - cbn [bind]. now rewrite app_nil_r.
    - rewrite map.get_put_diff by apply cred_body_name_fresh.
      apply map.get_put_same. }
  split; [reflexivity|].
  split.
  { rewrite len_auth_sys_cred_bytes, len_xdr_padded_bytes. lia. }
  unfold auth_sys_bytes.
  rewrite !len_app, !len_be_split, len_auth_sys_cred_bytes.
  replace (Z.of_nat 4 +
           (Z.of_nat 4 +
            (20 + len name_bytes + xdr_pad_length (len name_bytes) +
             (Z.of_nat 4 + Z.of_nat 4))))
    with (len name_bytes + xdr_pad_length (len name_bytes) + 9 * 4) by lia.
  rewrite Z.mod_add by lia. apply xdr_pad_length_aligned.
Qed.

(** The default machine name "fuzzer", uid 1000, gid 100. *)
Lemma auth_sys_block_layout_witness :
  let nb := [Byte.x66; Byte.x75; Byte.x7a; Byte.x7a; Byte.x65; Byte.x72] in
  encode_utf8 auth_sys_default_machine_name = Ok nb /\
  len nb < 2 ^ 31 /\ fits 4 1000 /\ fits 4 100 /\
  exists (a : node) (bs : bytes),
    auth_sys_block "a" auth_sys_default_machine_name 1000 100 = Ok a /\
    render_node a = Ok bs /\
    bs = be_split 4 AUTH_SYS ++ be_split 4 28
         ++ (be_split 4 0 ++ be_split 4 6 ++ nb ++ [Byte.x00; Byte.x00]
             ++ be_split 4 1000 ++ be_split 4 100 ++ be_split 4 0)
         ++ be_split 4 AUTH_NONE ++ be_split 4 0.
Proof.
  cbv zeta.
  assert (H1 : encode_utf8 auth_sys_default_machine_name
               = Ok [Byte.x66; Byte.x75; Byte.x7a; Byte.x7a; Byte.x65;
                     Byte.x72]) by (vm_compute; reflexivity).
  assert (H2 : len [Byte.x66; Byte.x75; Byte.x7a; Byte.x7a; Byte.x65;
                    Byte.x72] < 2 ^ 31) by (vm_compute; reflexivity).
  assert (H3 : fits 4 1000) by (apply fits4_intro; lia).
  assert (H4 : fits 4 100) by (apply fits4_intro; lia).
  repeat (split; [assumption|]).
  destruct (auth_sys_block_layout "a" _ 1000 100 _ H1 H2 H3 H4)
    as [a [bs [Ha [Hbs [Heq _]]]]].
  exists a, bs. split; [exact Ha|]. split; [exact Hbs|]. exact Heq.
Defined.

Lemma auth_cred_body_name_fresh (name : string) :
  ((name ++ "_auth") ++ "_cred_body")%string
  <> (name ++ "_rpc_message")%string.
Proof.
  rewrite append_assoc. intros H. apply append_inv_head in H. discriminate.
Qed.

(** X9: with [auth_type = "sys"], [rpc_call_request] puts the AUTH_SYS
    block for machine "fuzzer", uid 0 and gid 0 between the header and the
    arguments.  A call without arguments whose four header values fit a
    uint32 renders to 72 bytes: the record mark 0x80000044, the 24 header
    bytes, then flavor 1, credential length 28, the 28-byte credential body
    and the AUTH_NONE verifier.  Both size fields hold the length of the
    block they name. *)
Theorem rpc_call_request_auth_sys
    (name : string) (program version procedure xid : Z) :
  fits 4 xid -> fits 4 program -> fits 4 version -> fits 4 procedure ->
  exists (r : Request) (bs : bytes),
    rpc_call_request name program version procedure [] "sys" xid = Ok r /\
    render r = Ok bs /\
    bs = be_split 4 0x80000044
         ++ rpc_header_bytes program version procedure xid
         ++ be_split 4 AUTH_SYS ++ be_split 4 28
         ++ (be_split 4 0 ++ be_split 4 6 ++ fuzzer_bytes
             ++ [Byte.x00; Byte.x00]
             ++ be_split 4 0 ++ be_split 4 0 ++ be_split 4 0)
         ++ be_split 4 AUTH_NONE ++ be_split 4 0 /\
    len bs = 72.
Proof.
  intros Hxid Hprog Hvers Hproc.
  assert (Hnb : len fuzzer_bytes < 2 ^ 31) by (vm_compute; reflexivity).
  assert (H0 : fits 4 0) by (apply fits4_intro; lia).
  assert (Hr : rpc_call_request name program version procedure [] "sys" xid
               = Ok (mkRequest name
                       [ tcp_record_mark (name ++ "_rpc_message")
                           (name ++ "_record_mark");
                         Block (name ++ "_rpc_message")
                           (rpc_header_fields name program version procedure
                              xid
                            ++ [auth_sys_tree (name ++ "_auth") fuzzer_bytes
                                  0 0] ++ []) ])) by reflexivity.
  eexists. eexists. split; [exact Hr|].
  assert (Hrender :
    render (mkRequest name
              [ tcp_record_mark (name ++ "_rpc_message")
                  (name ++ "_record_mark");
                Block (name ++ "_rpc_message")
                  (rpc_header_fields name program version procedure xid
                   ++ [auth_sys_tree (name ++ "_auth") fuzzer_bytes 0 0]
                   ++ []) ])
    = Ok (be_split 4 (Z.lor 0x80000000 68)
          ++ rpc_header_bytes program version procedure xid
          ++ auth_sys_bytes fuzzer_bytes 0 0)).
  { unfold render, render_children. cbn [req_children serialize_children].
    rewrite serialize_tcp_record_mark. cbn [bind].
    rewrite serialize_Block, serialize_children_app.
    rewrite serialize_rpc_header by assumption. cbn [bind].
    cbn [List.app serialize_children].
    destruct (serialize_auth_sys_tree (name ++ "_auth") fuzzer_bytes 0 0
                Hnb H0 H0 map.empty) as [b [-> Hb]].
    cbn [bind]. rewrite !app_nil_r.
    assert (Hlen : len (rpc_header_bytes program version procedure xid ++ b)
                   = 68).
    { rewrite len_app, len_rpc_header_bytes, Hb. reflexivity. }
    rewrite Hlen.
    rewrite resolve_children_cons.
    erewrite resolve_tcp_record_mark;
      [|apply map.get_put_same|change (2 ^ 31) with 2147483648; lia].
    cbn [bind].
    rewrite resolve_children_cons, resolve_Block, resolve_children_app.
    rewrite resolve_rpc_header by assumption. cbn [bind].
    cbn [List.app]. rewrite resolve_children_cons.
    rewrite resolve_auth_sys_tree; try assumption.
    - cbn [resolve_children bind]. now rewrite !app_nil_r.
    - rewrite map.get_put_diff by apply auth_cred_body_name_fresh.
      rewrite map.get_put_diff by apply cred_body_name_fresh.
      apply map.get_put_same. }
  split; [exact Hrender|].
  split; reflexivity.
Qed.

(** The NULL call with AUTH_SYS. *)
Lemma rpc_call_request_auth_sys_witness :
  fits 4 1 /\ fits 4 PROG_NFS /\ fits 4 NFS_V3 /\ fits 4 NFSPROC3_NULL /\
  exists (r : Request) (bs : bytes),
    rpc_call_request "NFS3-NULL" PROG_NFS NFS_V3 NFSPROC3_NULL [] "sys" 1
    = Ok r /\
    render r = Ok bs /\
    len bs = 72.
Proof.
  assert (H1 : fits 4 1) by (apply fits4_intro; lia).
  assert (H2 : fits 4 PROG_NFS) by (apply fits4_intro; unfold PROG_NFS; lia).
  assert (H3 : fits 4 NFS_V3) by (apply fits4_intro; unfold NFS_V3; lia).
  assert (H4 : fits 4 NFSPROC3_NULL)
    by (apply fits4_intro; unfold NFSPROC3_NULL; lia).
  repeat (split; [assumption|]).
  destruct (rpc_call_request_auth_sys "NFS3-NULL" PROG_NFS NFS_V3
              NFSPROC3_NULL 1 H1 H2 H3 H4) as [r [bs [Hr [Hb [_ Hl]]]]].
  exists r, bs. split; [exact Hr|]. split; [exact Hb | exact Hl].
Defined.

(* ===================================================================== *)
(** ** What all builder calls share *)
(* ===================================================================== *)

Lemma word_aligned_Block (nm : string) (cs : list node) :
  word_aligned (Block nm cs) <-> Forall word_aligned cs.
Proof.
  cbn [word_aligned]. induction cs as [|c cs IH].
  - split; [constructor | trivial].
  - split.
    + intros [Hc Hcs]. constructor; [exact Hc | now apply IH].
    + intros H. inversion H; subst. split; [assumption | now apply IH].
Qed.

Lemma size_free_Block (nm : string) (cs : list node) :
  size_free (Block nm cs) <-> Forall size_free cs.
Proof.
  cbn [size_free]. induction cs as [|c cs IH].
  - split; [constructor | trivial].
  - split.
    + intros [Hc Hcs]. constructor; [exact Hc | now apply IH].
    + intros H. inversion H; subst. split; [assumption | now apply IH].
Qed.

Lemma len_xdr_padded_bytes_aligned (b : bytes) :
  len (xdr_padded_bytes b) mod 4 = 0.
Proof. rewrite len_xdr_padded_bytes. apply xdr_pad_length_aligned. Qed.

Lemma opaque_block_plain (name : string) (data : bytes) :
  word_aligned (opaque_block name data) /\ size_free (opaque_block name data).
Proof.
  split; cbn; auto using len_xdr_padded_bytes_aligned.
Qed.

Lemma fhandle3_plain (name : string) (h : option bytes) :
  word_aligned (fhandle3 name h) /\ size_free (fhandle3 name h).
Proof. rewrite fhandle3_opaque_block. apply opaque_block_plain. Qed.

Lemma dirop3_plain (name : string) (h : option bytes) (f : str) (d : node) :
  dirop3 name h f = Ok d ->
  word_aligned d /\ size_free d /\
  node_names d
  = [ name; (name ++ "_dir_handle")%string;
      ((name ++ "_dir_handle") ++ "_length")%string;
      ((name ++ "_dir_handle") ++ "_data")%string;
      (name ++ "_name")%string;
      ((name ++ "_name") ++ "_length")%string;
      ((name ++ "_name") ++ "_data")%string ].
Proof.
  destruct (encode_utf8 f) as [nb|e] eqn:Hf.
  - rewrite (dirop3_tree _ _ _ _ Hf). intros H. apply Ok_inj in H. subst d.
    split; [|split]; [| |reflexivity].
    + apply word_aligned_Block.
      repeat constructor; apply opaque_block_plain.
    + apply size_free_Block.
      repeat constructor; apply opaque_block_plain.
  - unfold dirop3. rewrite filename3_opaque_block, Hf. discriminate.
Qed.

Lemma node_names_fhandle3 (name : string) (h : option bytes) :
  node_names (fhandle3 name h)
  = [ name; (name ++ "_length")%string; (name ++ "_data")%string ].
Proof. destruct h; reflexivity. Qed.

Ltac plain_leaf :=
  first
    [ apply (proj1 (fhandle3_plain _ _))
    | apply (proj2 (fhandle3_plain _ _))
    | exact I
    | assumption
    | apply len_xdr_padded_bytes_aligned
    | match goal with
      | H : len (effective_cookieverf ?cv) = 8 |- _ =>
          destruct cv; cbn [effective_cookieverf word_aligned] in *;
          rewrite H; reflexivity
      end ].

Ltac plain_args :=
  repeat first
    [ apply Forall_nil
    | apply Forall_cons; [ cbn [word_aligned size_free]; plain_leaf | ] ].

Ltac plain_names :=
  cbn [req_children flat_map node_names List.app rpc_header_fields auth_none
       tcp_record_mark];
  rewrite ?node_names_fhandle3;
  repeat match goal with
  | H : node_names _ = _ |- _ => rewrite H; clear H
  end;
  vm_compute; reflexivity.

Lemma builder_call_plain (q : result Request) :
  builder_call q -> plain_call q.
Proof.
  intros Hq r Hr. destruct Hq;
    unfold nfs3_null, nfs3_getattr, nfs3_lookup, nfs3_access, nfs3_readlink,
      nfs3_read, nfs3_write, nfs3_create, nfs3_mkdir, nfs3_remove,
      nfs3_rmdir, nfs3_rename, nfs3_readdir, nfs3_readdirplus, nfs3_fsstat,
      nfs3_fsinfo, nfs3_pathconf, nfs3_commit in Hr;
    cbv zeta in Hr;
    repeat match type of Hr with
    | bind (dirop3 ?n ?h ?f) _ = _ =>
        let d := fresh "d" in
        let Hd := fresh "Hd" in
        destruct (dirop3 n h f) as [d|] eqn:Hd; cbn [bind] in Hr;
        [apply dirop3_plain in Hd; destruct Hd as [? [? ?]] | discriminate]
    end;
    unfold default_args_children, default_auth_type in Hr;
    (eexists; eexists; eexists; split; [exact Hr|]);
    (split; [cbn [In procedure_numbers]; tauto|]);
    rewrite rpc_call_request_none in Hr; apply Ok_inj in Hr; subst r;
    (split; [|split]).
  all: try solve [plain_args].
  all: plain_names.
Qed.

Lemma resolve_children_aligned (tbl : sizes) (cs : list node) :
  Forall (fun n => word_aligned n ->
            forall b, resolve tbl n = Ok b -> len b mod 4 = 0) cs ->
  Forall word_aligned cs ->
  forall b, resolve_children tbl cs = Ok b -> len b mod 4 = 0.
Proof.
  induction 1 as [|c cs Hc _ IH]; intros Hal b.
  - cbn. intros [= <-]. reflexivity.
  - apply Forall_cons_iff in Hal. destruct Hal as [Hac Hacs].
    rewrite resolve_children_cons.
    destruct (resolve tbl c) as [b1|e] eqn:Hb1; cbn [bind]; [|discriminate].
    destruct (resolve_children tbl cs) as [b2|e] eqn:Hb2; cbn [bind];
      [|discriminate].
    intros Hb. apply Ok_inj in Hb. subst b.
    rewrite len_app, Z.add_mod by lia.
    rewrite (Hc Hac b1 eq_refl), (IH Hacs b2 eq_refl). reflexivity.
Qed.

Lemma resolve_aligned (tbl : sizes) (n : node) :
  word_aligned n -> forall b, resolve tbl n = Ok b -> len b mod 4 = 0.
Proof.
  induction n as [nm v e f|nm v e f|nm v s f|nm v|nm t w e m f|nm cs IH]
    using node_ind; intros Hal b.
  - cbn [resolve]. intros H. apply encode_uint_ok in H.
    unfold len. destruct H as [_ ->]. reflexivity.
  - cbn [resolve]. intros H. apply encode_uint_ok in H.
    unfold len. destruct H as [_ ->]. reflexivity.
  - cbn in *. now intros [= <-].
  - cbn in *. now intros [= <-].
  - cbn [resolve]. unfold resolve_size.
    destruct (map.get tbl t); [|discriminate].
    intros H. apply encode_uint_ok in H.
    unfold len. destruct H as [_ ->]. exact Hal.
  - rewrite resolve_Block. apply word_aligned_Block in Hal.
    now apply resolve_children_aligned.
Qed.






Lemma header_auth_plain (name : string) (program version procedure xid : Z)
    (args : list node) :
  Forall word_aligned args -> Forall size_free args ->
  Forall word_aligned
    (rpc_header_fields name program version procedure xid
     ++ auth_none (name ++ "_auth") ++ args) /\
  Forall size_free
    (rpc_header_fields name program version procedure xid
     ++ auth_none (name ++ "_auth") ++ args).
Proof.
  intros Hal Hsf. split.
  - apply Forall_app. split; [repeat constructor|].
    apply Forall_app. split; [repeat constructor | exact Hal].
  - apply Forall_app. split; [repeat constructor|].
    apply Forall_app. split; [repeat constructor | exact Hsf].
Qed.

(** X10: every message a procedure builder produces is XDR-aligned:
    whichever of the eighteen builders is called, and with whatever
    handle, name, payload or numbers, a request that renders renders to a
    multiple of 4 bytes. *)
Theorem builder_calls_aligned (q : result Request) (r : Request)
    (bs : bytes) :
  builder_call q -> q = Ok r -> render r = Ok bs -> len bs mod 4 = 0.
Proof.
  intros Hq Hr Hrender.
  destruct (builder_call_plain q Hq r Hr)
    as [name [procedure [args [Hcall [_ [Hal [Hsf _]]]]]]].
  rewrite rpc_call_request_none in Hcall. apply Ok_inj in Hcall. subst r.
  unfold render, render_children in Hrender. cbn [req_children] in Hrender.
  destruct (serialize_children _ map.empty) as [[b tbl]|e];
    cbn [bind] in Hrender; [|discriminate].
  revert Hrender. apply resolve_children_aligned.
  - apply Forall_forall. intros n _. apply resolve_aligned.
  - constructor; [reflexivity|]. constructor; [|constructor].
    apply word_aligned_Block. now apply header_auth_plain.
Qed.

(** A WRITE of 7 bytes through a 5-byte handle: 3 and 1 bytes of
    padding. *)
Lemma builder_calls_aligned_witness :
  let q := nfs3_write (Some (bytes_mul [Byte.x01] 5)) 9 7 FILE_SYNC
             (bytes_mul [Byte.x41] 7) in
  exists (r : Request) (bs : bytes),
    builder_call q /\ q = Ok r /\ render r = Ok bs /\ len bs mod 4 = 0.
Proof.
  cbv zeta. eexists. eexists.
  match goal with
  | |- ?A /\ ?B /\ ?C /\ _ =>
      assert (H1 : A) by constructor;
      assert (H2 : B) by reflexivity;
      assert (H3 : C) by (vm_compute; reflexivity)
  end.
  split; [exact H1|]. split; [exact H2|]. split; [exact H3|].
  exact (builder_calls_aligned _ _ _ H1 H2 H3).
Defined.



Lemma distinct_NoDup (l : list string) : distinct l = true -> NoDup l.
Proof.
  induction l as [|x l IH]; cbn [distinct]; [constructor|].
  intros H. apply andb_true_iff in H. destruct H as [Hx Hl].
  constructor; [|now apply IH].
  intros Hin. apply negb_true_iff in Hx.
  assert (Hex : existsb (String.eqb x) l = true).
  { apply existsb_exists. exists x. split; [exact Hin|].
    apply String.eqb_refl. }
  congruence.
Qed.



(* ===================================================================== *)
(** ** Procedure numbers *)
(* ===================================================================== *)



(* ===================================================================== *)
(** ** Argument layouts *)
(* ===================================================================== *)

Lemma fits4_const (v : Z) :
  (0 <=? v) && (v <? 4294967296) = true -> fits 4 v.
Proof.
  intros H. apply andb_true_iff in H. destruct H as [H1 H2].
  apply Z.leb_le in H1. apply Z.ltb_lt in H2. apply fits4_intro. lia.
Qed.

Ltac header_fits := apply fits4_const; reflexivity.

Lemma body_length_bound (program version procedure xid : Z)
    (args_bytes : bytes) :
  len args_bytes < 2 ^ 31 - 40 ->
  len (rpc_header_bytes program version procedure xid
       ++ auth_none_bytes ++ args_bytes) < 2 ^ 31.
Proof.
  intros H. rewrite !len_app, len_rpc_header_bytes, len_auth_none_bytes.
  lia.
Qed.

Lemma xdr_opaque_bound (data : bytes) :
  len (xdr_opaque data) <= len data + 7.
Proof.
  rewrite len_xdr_opaque.
  pose proof (xdr_pad_length_range (len data)). lia.
Qed.

(** X14: READ sends the handle, then the offset as 8 big-endian bytes,
    then the count as 4.  For every handle below 2^30 bytes, every offset
    that fits a uint64 and count that fits a uint32, the call renders, and
    a receiver that skips the 44 bytes of record mark, header and
    authentication reads back the handle, the offset and the count. *)
Theorem nfs3_read_reads_back (handle_data : option bytes) (offset count : Z) :
  fits 8 offset -> fits 4 count ->
  len (effective_handle handle_data) < 2 ^ 30 ->
  exists (r : Request) (bs tail : bytes),
    nfs3_read handle_data offset count = Ok r /\
    render r = Ok bs /\
    xdr_read_opaque (skipn 44 bs)
    = Some (effective_handle handle_data, tail) /\
    tail = be_split 8 offset ++ be_split 4 count /\
    be_combine (firstn 8 tail) = offset /\
    be_combine (skipn 8 tail) = count.
Proof.
  intros Ho Hc Hh.
  pose proof (len_nonneg (effective_handle handle_data)) as Hh0.
  change (2 ^ 30) with 1073741824 in Hh.
  assert (Hfh : fits 4 (len (effective_handle handle_data)))
    by (apply fits4_intro; lia).
  destruct (render_rpc_call "NFS3-READ" PROG_NFS NFS_V3 NFSPROC3_READ
              default_xid
              [ fhandle3 "NFS3-READ_fhandle" handle_data;
                QWord "NFS3-READ_offset" offset BIG_ENDIAN (Some true);
                DWord "NFS3-READ_count" count BIG_ENDIAN (Some true) ]
              (xdr_opaque (effective_handle handle_data)
               ++ be_split 8 offset ++ be_split 4 count))
    as [r [Hr Hrender]]; try header_fits.
  - intros tbl. cbn [serialize_children].
    rewrite serialize_fhandle3 by exact Hfh. cbn [bind serialize].
    rewrite !encode_uint_fits by assumption. cbn [bind].
    rewrite app_nil_r. eexists. reflexivity.
  - intros tbl. cbn [resolve_children].
    rewrite resolve_fhandle3 by exact Hfh. cbn [bind resolve].
    rewrite !encode_uint_fits by assumption. cbn [bind].
    now rewrite app_nil_r.
  - apply body_length_bound.
    rewrite !len_app, !len_be_split.
    pose proof (xdr_opaque_bound (effective_handle handle_data)).
    change (2 ^ 31) with 2147483648. lia.
  - exists r. eexists. exists (be_split 8 offset ++ be_split 4 count).
    split; [exact Hr|]. split; [exact Hrender|].
    split.
    { rewrite !app_assoc.
      rewrite <- (app_assoc _ (be_split 8 offset) (be_split 4 count)).
      rewrite <- (app_assoc _ (xdr_opaque _) _).
      rewrite skipn_length_app by reflexivity.
      now apply xdr_read_opaque_encoded. }
    split; [reflexivity|].
    split.
    + rewrite firstn_length_app by (now rewrite length_be_split).
      now apply be_combine_split.
    + rewrite skipn_length_app by (now rewrite length_be_split).
      now apply be_combine_split.
Qed.

(** Offset 2^40 + 5: the high word comes first. *)
Lemma nfs3_read_reads_back_witness :
  fits 8 0x10000000005 /\ fits 4 4096 /\
  len (effective_handle None) < 2 ^ 30 /\
  exists (r : Request) (bs tail : bytes),
    nfs3_read None 0x10000000005 4096 = Ok r /\
    render r = Ok bs /\
    xdr_read_opaque (skipn 44 bs) = Some (effective_handle None, tail) /\
    tail = [Byte.x00; Byte.x00; Byte.x01; Byte.x00;
            Byte.x00; Byte.x00; Byte.x00; Byte.x05;
            Byte.x00; Byte.x00; Byte.x10; Byte.x00].
Proof.
  assert (H1 : fits 8 0x10000000005) by (apply fits8_intro; lia).
  assert (H2 : fits 4 4096) by (apply fits4_intro; lia).
  assert (H3 : len (effective_handle None) < 2 ^ 30)
    by (vm_compute; reflexivity).
  repeat (split; [assumption|]).
  destruct (nfs3_read_reads_back None 0x10000000005 4096 H1 H2 H3)
    as [r [bs [tail [Hr [Hb [Hread [Htail _]]]]]]].
  exists r, bs, tail.
  split; [exact Hr|]. split; [exact Hb|]. split; [exact Hread|].
  rewrite Htail. reflexivity.
Defined.

(** X15: READDIR sends the handle, the 8-byte cookie, the cookie verifier
    and the count.  When no verifier is given the builder sends eight zero
    bytes; an 8-byte verifier is sent as given.  The call then renders,
    and after the handle the arguments take exactly 20 bytes. *)
Theorem nfs3_readdir_layout (handle_data : option bytes) (cookie : Z)
    (cookieverf : option bytes) (count : Z) :
  fits 8 cookie -> fits 4 count ->
  len (effective_handle handle_data) < 2 ^ 30 ->
  len (effective_cookieverf cookieverf) = 8 ->
  exists (r : Request) (bs tail : bytes),
    nfs3_readdir handle_data cookie cookieverf count = Ok r /\
    render r = Ok bs /\
    xdr_read_opaque (skipn 44 bs)
    = Some (effective_handle handle_data, tail) /\
    tail = be_split 8 cookie ++ effective_cookieverf cookieverf
           ++ be_split 4 count /\
    len tail = 20 /\
    effective_cookieverf None = List.repeat Byte.x00 8.
Proof.
  intros Hk Hc Hh Hcv.
  pose proof (len_nonneg (effective_handle handle_data)) as Hh0.
  change (2 ^ 30) with 1073741824 in Hh.
  assert (Hfh : fits 4 (len (effective_handle handle_data)))
    by (apply fits4_intro; lia).
  destruct (render_rpc_call "NFS3-READDIR" PROG_NFS NFS_V3 NFSPROC3_READDIR
              default_xid
              [ fhandle3 "NFS3-READDIR_dir" handle_data;
                QWord "NFS3-READDIR_cookie" cookie BIG_ENDIAN (Some true);
                Bytes "NFS3-READDIR_cookieverf"
                      (effective_cookieverf cookieverf) 8 (Some true);
                DWord "NFS3-READDIR_count" count BIG_ENDIAN (Some true) ]
              (xdr_opaque (effective_handle handle_data)
               ++ be_split 8 cookie ++ effective_cookieverf cookieverf
               ++ be_split 4 count))
    as [r [Hr Hrender]]; try header_fits.
  - intros tbl. cbn [serialize_children].
    rewrite serialize_fhandle3 by exact Hfh. cbn [bind serialize].
    rewrite !encode_uint_fits by assumption. cbn [bind].
    rewrite app_nil_r. eexists. reflexivity.
  - intros tbl. cbn [resolve_children].
    rewrite resolve_fhandle3 by exact Hfh. cbn [bind resolve].
    rewrite !encode_uint_fits by assumption. cbn [bind].
    now rewrite app_nil_r.
  - apply body_length_bound.
    rewrite !len_app, !len_be_split, Hcv.
    pose proof (xdr_opaque_bound (effective_handle handle_data)).
    change (2 ^ 31) with 2147483648. lia.
  - exists r. eexists.
    exists (be_split 8 cookie ++ effective_cookieverf cookieverf
            ++ be_split 4 count).
    split; [exact Hr|]. split; [exact Hrender|].
    split.
    { rewrite (app_assoc (be_split 4 _)), (app_assoc (_ ++ _)).
      rewrite skipn_length_app by reflexivity.
      now apply xdr_read_opaque_encoded. }
    split; [reflexivity|].
    split; [|reflexivity].
    rewrite !len_app, !len_be_split, Hcv. reflexivity.
Qed.

(** READDIR with no cookie verifier. *)
Lemma nfs3_readdir_layout_witness :
  fits 8 0 /\ fits 4 4096 /\
  len (effective_handle None) < 2 ^ 30 /\
  len (effective_cookieverf None) = 8 /\
  exists (r : Request) (bs tail : bytes),
    nfs3_readdir None 0 None 4096 = Ok r /\
    render r = Ok bs /\
    xdr_read_opaque (skipn 44 bs) = Some (effective_handle None, tail) /\
    tail = be_split 8 0 ++ List.repeat Byte.x00 8 ++ be_split 4 4096.
Proof.
  assert (H1 : fits 8 0) by (apply fits8_intro; lia).
  assert (H2 : fits 4 4096) by (apply fits4_intro; lia).
  assert (H3 : len (effective_handle None) < 2 ^ 30)
    by (vm_compute; reflexivity).
  assert (H4 : len (effective_cookieverf None) = 8) by reflexivity.
  repeat (split; [assumption|]).
  destruct (nfs3_readdir_layout None 0 None 4096 H1 H2 H3 H4)
    as [r [bs [tail [Hr [Hb [Hread [Htail _]]]]]]].
  exists r, bs, tail.
  split; [exact Hr|]. split; [exact Hb|]. split; [exact Hread|].
  exact Htail.
Defined.

(** X16: CREATE sends the directory operation, the creation mode, and then
    a set-attributes structure in which nothing is set: exactly six zero
    words, whatever the mode.  For every encodable name the call renders,
    and a receiver reads back the directory handle, the name, the mode and
    24 zero bytes. *)
Theorem nfs3_create_layout (dir_handle : option bytes) (filename : str)
    (create_mode : Z) (name_bytes : bytes) :
  encode_utf8 filename = Ok name_bytes ->
  fits 4 create_mode ->
  len (effective_handle dir_handle) + len name_bytes < 2 ^ 30 ->
  exists (r : Request) (bs after_handle tail : bytes),
    nfs3_create dir_handle filename create_mode = Ok r /\
    render r = Ok bs /\
    xdr_read_opaque (skipn 44 bs)
    = Some (effective_handle dir_handle, after_handle) /\
    xdr_read_opaque after_handle = Some (name_bytes, tail) /\
    tail = be_split 4 create_mode ++ List.repeat Byte.x00 24.
Proof.
  intros Henc Hm Hlen.
  pose proof (len_nonneg (effective_handle dir_handle)) as Hh0.
  pose proof (len_nonneg name_bytes) as Hn0.
  change (2 ^ 30) with 1073741824 in Hlen.
  assert (Hfh : fits 4 (len (effective_handle dir_handle)))
    by (apply fits4_intro; lia).
  assert (Hfn : fits 4 (len name_bytes)) by (apply fits4_intro; lia).
  assert (H0 : fits 4 0) by header_fits.
  unfold nfs3_create.
  rewrite (dirop3_tree _ _ _ _ Henc). cbn [bind].
  unfold default_auth_type.
  destruct (render_rpc_call "NFS3-CREATE" PROG_NFS NFS_V3 NFSPROC3_CREATE
              default_xid
              [ Block "NFS3-CREATE_where"
                  [ opaque_block ("NFS3-CREATE_where" ++ "_dir_handle")
                      (effective_handle dir_handle);
                    opaque_block ("NFS3-CREATE_where" ++ "_name")
                      name_bytes ];
                DWord "NFS3-CREATE_mode" create_mode BIG_ENDIAN (Some true);
                DWord "NFS3-CREATE_set_mode" 0 BIG_ENDIAN None;
                DWord "NFS3-CREATE_set_uid" 0 BIG_ENDIAN None;
                DWord "NFS3-CREATE_set_gid" 0 BIG_ENDIAN None;
                DWord "NFS3-CREATE_set_size" 0 BIG_ENDIAN None;
                DWord "NFS3-CREATE_set_atime" 0 BIG_ENDIAN None;
                DWord "NFS3-CREATE_set_mtime" 0 BIG_ENDIAN None ]
              ((xdr_opaque (effective_handle dir_handle)
                ++ xdr_opaque name_bytes)
               ++ be_split 4 create_mode ++ List.repeat Byte.x00 24))
    as [r [Hr Hrender]]; try header_fits.
  - intros tbl. cbn [serialize_children].
    destruct (serialize_dirop "NFS3-CREATE_where"
                (effective_handle dir_handle) name_bytes tbl Hfh Hfn)
      as [tbl' ->].
    cbn [bind serialize].
    rewrite !encode_uint_fits by assumption. cbn [bind].
    eexists. reflexivity.
  - intros tbl. cbn [resolve_children].
    rewrite resolve_dirop by assumption. cbn [bind resolve].
    rewrite !encode_uint_fits by assumption. cbn [bind].
    reflexivity.
  - apply body_length_bound.
    rewrite !len_app, !len_be_split.
    pose proof (xdr_opaque_bound (effective_handle dir_handle)).
    pose proof (xdr_opaque_bound name_bytes).
    change (len (repeat Byte.x00 24)) with 24.
    change (2 ^ 31) with 2147483648. lia.
  - exists r. eexists.
    exists (xdr_opaque name_bytes
            ++ be_split 4 create_mode ++ List.repeat Byte.x00 24).
    exists (be_split 4 create_mode ++ List.repeat Byte.x00 24).
    split; [exact Hr|]. split; [exact Hrender|].
    split.
    { rewrite (app_assoc (be_split 4 _)), (app_assoc (_ ++ _)).
      rewrite skipn_length_app by reflexivity.
      rewrite <- !app_assoc. now apply xdr_read_opaque_encoded. }
    split; [now apply xdr_read_opaque_encoded | reflexivity].
Qed.

(** Creating "é" with mode GUARDED. *)
Lemma nfs3_create_layout_witness :
  encode_utf8 [0xE9] = Ok [Byte.xc3; Byte.xa9] /\
  fits 4 GUARDED /\
  len (effective_handle None) + len [Byte.xc3; Byte.xa9] < 2 ^ 30 /\
  exists (r : Request) (bs after_handle tail : bytes),
    nfs3_create None [0xE9] GUARDED = Ok r /\
    render r = Ok bs /\
    xdr_read_opaque (skipn 44 bs)
    = Some (effective_handle None, after_handle) /\
    xdr_read_opaque after_handle = Some ([Byte.xc3; Byte.xa9], tail) /\
    tail = be_split 4 GUARDED ++ List.repeat Byte.x00 24.
Proof.
  assert (H1 : encode_utf8 [0xE9] = Ok [Byte.xc3; Byte.xa9])
    by (vm_compute; reflexivity).
  assert (H2 : fits 4 GUARDED) by header_fits.
  assert (H3 : len (effective_handle None) + len [Byte.xc3; Byte.xa9]
               < 2 ^ 30) by (vm_compute; reflexivity).
  repeat (split; [assumption|]).
  exact (nfs3_create_layout None [0xE9] GUARDED _ H1 H2 H3).
Defined.

(** X17: RENAME sends the source directory operation and then the
    destination one.  For every pair of encodable names the call renders,
    and a receiver reading four opaques in turn gets the source handle,
    the source name, the destination handle and the destination name, with
    nothing left over. *)
Theorem nfs3_rename_reads_back
    (from_dir_handle : option bytes) (from_name : str)
    (to_dir_handle : option bytes) (to_name : str)
    (from_bytes to_bytes : bytes) :
  encode_utf8 from_name = Ok from_bytes ->
  encode_utf8 to_name = Ok to_bytes ->
  len (effective_handle from_dir_handle) + len from_bytes
  + len (effective_handle to_dir_handle) + len to_bytes < 2 ^ 30 ->
  exists (r : Request) (bs s1 s2 s3 : bytes),
    nfs3_rename from_dir_handle from_name to_dir_handle to_name = Ok r /\
    render r = Ok bs /\
    xdr_read_opaque (skipn 44 bs)
    = Some (effective_handle from_dir_handle, s1) /\
    xdr_read_opaque s1 = Some (from_bytes, s2) /\
    xdr_read_opaque s2 = Some (effective_handle to_dir_handle, s3) /\
    xdr_read_opaque s3 = Some (to_bytes, []).
Proof.
  intros Hfrom Hto Hlen.
  pose proof (len_nonneg (effective_handle from_dir_handle)).
  pose proof (len_nonneg (effective_handle to_dir_handle)).
  pose proof (len_nonneg from_bytes). pose proof (len_nonneg to_bytes).
  change (2 ^ 30) with 1073741824 in Hlen.
  assert (Hf1 : fits 4 (len (effective_handle from_dir_handle)))
    by (apply fits4_intro; lia).
  assert (Hf2 : fits 4 (len from_bytes)) by (apply fits4_intro; lia).
  assert (Hf3 : fits 4 (len (effective_handle to_dir_handle)))
    by (apply fits4_intro; lia).
  assert (Hf4 : fits 4 (len to_bytes)) by (apply fits4_intro; lia).
  unfold nfs3_rename.
  rewrite (dirop3_tree _ _ _ _ Hfrom). cbn [bind].
  rewrite (dirop3_tree _ _ _ _ Hto). cbn [bind].
  unfold default_auth_type.
  destruct (render_rpc_call "NFS3-RENAME" PROG_NFS NFS_V3 NFSPROC3_RENAME
              default_xid
              [ Block "NFS3-RENAME_from"
                  [ opaque_block ("NFS3-RENAME_from" ++ "_dir_handle")
                      (effective_handle from_dir_handle);
                    opaque_block ("NFS3-RENAME_from" ++ "_name")
                      from_bytes ];
                Block "NFS3-RENAME_to"
                  [ opaque_block ("NFS3-RENAME_to" ++ "_dir_handle")
                      (effective_handle to_dir_handle);
                    opaque_block ("NFS3-RENAME_to" ++ "_name") to_bytes ] ]
              ((xdr_opaque (effective_handle from_dir_handle)
                ++ xdr_opaque from_bytes)
               ++ (xdr_opaque (effective_handle to_dir_handle)
                   ++ xdr_opaque to_bytes)))
    as [r [Hr Hrender]]; try header_fits.
  - intros tbl. cbn [serialize_children].
    destruct (serialize_dirop "NFS3-RENAME_from" _ _ tbl Hf1 Hf2)
      as [tbl1 ->].
    cbn [bind].
    destruct (serialize_dirop "NFS3-RENAME_to" _ _ tbl1 Hf3 Hf4)
      as [tbl2 ->].
    cbn [bind]. rewrite app_nil_r. eexists. reflexivity.
  - intros tbl. cbn [resolve_children].
    rewrite !resolve_dirop by assumption. cbn [bind].
    now rewrite app_nil_r.
  - apply body_length_bound.
    rewrite !len_app.
    pose proof (xdr_opaque_bound (effective_handle from_dir_handle)).
    pose proof (xdr_opaque_bound from_bytes).
    pose proof (xdr_opaque_bound (effective_handle to_dir_handle)).
    pose proof (xdr_opaque_bound to_bytes).
    change (2 ^ 31) with 2147483648. lia.
  - exists r. eexists.
    exists (xdr_opaque from_bytes
            ++ xdr_opaque (effective_handle to_dir_handle)
            ++ xdr_opaque to_bytes).
    exists (xdr_opaque (effective_handle to_dir_handle)
            ++ xdr_opaque to_bytes).
    exists (xdr_opaque to_bytes).
    split; [exact Hr|]. split; [exact Hrender|].
    split.
    { rewrite (app_assoc (be_split 4 _)), (app_assoc (_ ++ _)).
      rewrite skipn_length_app by reflexivity.
      rewrite <- !app_assoc. now apply xdr_read_opaque_encoded. }
    split; [now apply xdr_read_opaque_encoded|].
    split; [now apply xdr_read_opaque_encoded|].
    rewrite <- (app_nil_r (xdr_opaque to_bytes)).
    now apply xdr_read_opaque_encoded.
Qed.

(** Renaming "a" to "bcd" between two different directories. *)
Lemma nfs3_rename_reads_back_witness :
  let h1 := Some [Byte.x01] in
  let h2 := Some [Byte.x02; Byte.x03] in
  encode_utf8 (str_of_string "a") = Ok [Byte.x61] /\
  encode_utf8 (str_of_string "bcd") = Ok [Byte.x62; Byte.x63; Byte.x64] /\
  len (effective_handle h1) + len [Byte.x61]
  + len (effective_handle h2) + len [Byte.x62; Byte.x63; Byte.x64] < 2 ^ 30 /\
  exists (r : Request) (bs s1 s2 s3 : bytes),
    nfs3_rename h1 (str_of_string "a") h2 (str_of_string "bcd") = Ok r /\
    render r = Ok bs /\
    xdr_read_opaque (skipn 44 bs) = Some ([Byte.x01], s1) /\
    xdr_read_opaque s1 = Some ([Byte.x61], s2) /\
    xdr_read_opaque s2 = Some ([Byte.x02; Byte.x03], s3) /\
    xdr_read_opaque s3 = Some ([Byte.x62; Byte.x63; Byte.x64], []).
Proof.
  cbv zeta.
  assert (H1 : encode_utf8 (str_of_string "a") = Ok [Byte.x61])
    by (vm_compute; reflexivity).
  assert (H2 : encode_utf8 (str_of_string "bcd")
               = Ok [Byte.x62; Byte.x63; Byte.x64])
    by (vm_compute; reflexivity).
  assert (H3 : len (effective_handle (Some [Byte.x01])) + len [Byte.x61]
               + len (effective_handle (Some [Byte.x02; Byte.x03]))
               + len [Byte.x62; Byte.x63; Byte.x64] < 2 ^ 30)
    by (vm_compute; reflexivity).
  repeat (split; [assumption|]).
  exact (nfs3_rename_reads_back _ _ _ _ _ _ H1 H2 H3).
Defined.

(* ===================================================================== *)
(** ** Timestamps *)
(* ===================================================================== *)

(** X18: [nfstime3] renders to 8 bytes, seconds first: for seconds and
    nanoseconds that fit a uint32 the two big-endian words read back as
    the values given. *)
Theorem nfstime3_roundtrip (name : string) (seconds nseconds : Z) :
  fits 4 seconds -> fits 4 nseconds ->
  exists bs : bytes,
    render_node (nfstime3 name seconds nseconds) = Ok bs /\
    len bs = 8 /\
    be_combine (firstn 4 bs) = seconds /\
    be_combine (skipn 4 bs) = nseconds.
Proof.
  intros Hs Hn. exists (be_split 4 seconds ++ be_split 4 nseconds).
  split.
  { unfold render_node, render_children, nfstime3.
    cbn [serialize_children serialize].
    rewrite !encode_uint_fits by assumption. cbn [bind resolve_children].
    cbn [resolve]. rewrite !encode_uint_fits by assumption.
    cbn [bind]. now rewrite !app_nil_r. }
  split; [reflexivity|]. split.
  - rewrite firstn_length_app by (now rewrite length_be_split).
    now apply be_combine_split.
  - rewrite skipn_length_app by (now rewrite length_be_split).
    now apply be_combine_split.
Qed.

(** One second before the uint32 seconds wrap, and the last nanosecond. *)
Lemma nfstime3_roundtrip_witness :
  fits 4 4294967295 /\ fits 4 999999999 /\
  exists bs : bytes,
    render_node (nfstime3 "t" 4294967295 999999999) = Ok bs /\
    len bs = 8 /\
    be_combine (firstn 4 bs) = 4294967295 /\
    be_combine (skipn 4 bs) = 999999999.
Proof.
  assert (H1 : fits 4 4294967295) by (apply fits4_intro; lia).
  assert (H2 : fits 4 999999999) by (apply fits4_intro; lia).
  split; [exact H1|]. split; [exact H2|].
  exact (nfstime3_roundtrip "t" _ _ H1 H2).
Defined.

(* ===================================================================== *)
(** ** The driver: choosing and registering procedures *)
(* ===================================================================== *)

Lemma str_eqb_eq (a b : str) : str_eqb a b = true <-> a = b.
Proof.
  revert b. induction a as [|x a IH]; intros [|y b]; cbn [str_eqb];
    try (split; [discriminate | discriminate]); [tauto|].
  rewrite andb_true_iff, Z.eqb_eq, IH.
  split; [intros [-> ->]; reflexivity | intros [= -> ->]; auto].
Qed.

Lemma lookup_key (name : str) (d : list (str * result Request)) :
  existsb (str_eqb name) (List.map fst d) = true ->
  exists v, lookup name d = Some v /\ In v (List.map snd d).
Proof.
  induction d as [|[k v] d IH]; cbn [lookup List.map existsb fst snd];
    [discriminate|].
  destruct (str_eqb name k).
  - intros _. exists v. split; [reflexivity | now left].
  - cbn [orb]. intros H. destruct (IH H) as [v' [Hl Hin]].
    exists v'. split; [exact Hl | now right].
Qed.

Lemma lookup_not_key (name : str) (d : list (str * result Request)) :
  existsb (str_eqb name) (List.map fst d) = false -> lookup name d = None.
Proof.
  induction d as [|[k v] d IH]; cbn [lookup List.map existsb fst snd];
    [reflexivity|].
  destruct (str_eqb name k); cbn [orb]; [discriminate | exact IH].
Qed.

Lemma all_entries_render :
  Forall (fun q => exists r bs, q = Ok r /\ render r = Ok bs)
         (List.map snd PROCEDURES).
Proof.
  assert (H : forallb (fun q => is_ok (r <- q ;; render r))
                      (List.map snd PROCEDURES) = true)
    by (vm_compute; reflexivity).
  rewrite forallb_forall in H. apply Forall_forall. intros q Hq.
  specialize (H q Hq). destruct q as [r|e]; cbn [bind is_ok] in H;
    [|discriminate].
  destruct (render r) as [bs|e] eqn:Hr; [|discriminate].
  eauto.
Qed.

Lemma first_unknown_none (names : list str) :
  first_unknown names = None -> Forall (fun n => is_key n = true) names.
Proof.
  induction names as [|n names IH]; cbn [first_unknown]; [constructor|].
  destruct (is_key n) eqn:Hn; [|discriminate].
  intros H. constructor; [exact Hn | now apply IH].
Qed.

Lemma first_unknown_some (names : list str) (bad : str) :
  first_unknown names = Some bad ->
  exists pre post,
    names = pre ++ bad :: post /\
    Forall (fun n => is_key n = true) pre /\ is_key bad = false.
Proof.
  induction names as [|n names IH]; cbn [first_unknown]; [discriminate|].
  destruct (is_key n) eqn:Hn.
  - intros H. destruct (IH H) as [pre [post [-> [Hpre Hbad]]]].
    exists (n :: pre), post. split; [reflexivity|].
    split; [now constructor | exact Hbad].
  - intros [= <-]. exists [], names. split; [reflexivity|].
    split; [constructor | exact Hn].
Qed.

Lemma register_keys (names : list str) :
  Forall (fun n => is_key n = true) names ->
  exists requests,
    register names = Done requests /\
    List.length requests = List.length names /\
    Forall (fun r => exists bs, render r = Ok bs) requests.
Proof.
  induction 1 as [|n names Hn _ IH].
  - exists []. repeat split; constructor.
  - destruct IH as [requests [Hreg [Hlen Hall]]].
    destruct (lookup_key n PROCEDURES Hn) as [q [Hl Hin]].
    pose proof all_entries_render as Hrender.
    rewrite Forall_forall in Hrender.
    destruct (Hrender q Hin) as [r [bs [-> Hbs]]].
    exists (r :: requests). cbn [register]. rewrite Hl, Hreg.
    split; [reflexivity|]. split; [cbn; now rewrite Hlen|].
    constructor; [eauto | exact Hall].
Qed.

Lemma selected_names_are_keys (strip upper : str -> str)
    (all_procedures : bool) (procedures : option str) (names : list str) :
  procedure_names strip upper all_procedures procedures = Done names ->
  Forall (fun n => is_key n = true) names.
Proof.
  unfold procedure_names. destruct all_procedures.
  - intros [= <-]. apply Forall_forall. intros n Hn.
    assert (H : forallb is_key keys = true) by (vm_compute; reflexivity).
    rewrite forallb_forall in H. now apply H.
  - assert (Hdef : Forall (fun n => is_key n = true) DEFAULT_PROCEDURES).
    { apply Forall_forall. intros n Hn.
      assert (H : forallb is_key DEFAULT_PROCEDURES = true)
        by (vm_compute; reflexivity).
      rewrite forallb_forall in H. now apply H. }
    destruct procedures as [[|c p]|]; try (intros [= <-]; exact Hdef).
    cbv zeta.
    destruct (first_unknown (normalize strip upper (c :: p))) eqn:Hf;
      [discriminate|].
    intros [= <-]. now apply first_unknown_none.
Qed.

(** X19: registration cannot fail once the names are chosen.  Whatever
    the command line asks for (and whatever [strip] and [upper] do), when
    the choice of procedures ends without an unknown-procedure error,
    every chosen name is a key of [PROCEDURES], its builder returns a
    request, and that request renders: one request per name, no
    [KeyError], no exception. *)
Theorem registration_never_fails (strip upper : str -> str)
    (all_procedures : bool) (procedures : option str) (names : list str) :
  procedure_names strip upper all_procedures procedures = Done names ->
  exists requests : list Request,
    register names = Done requests /\
    List.length requests = List.length names /\
    Forall (fun r => exists bs, render r = Ok bs) requests.
Proof.
  intros H. apply register_keys.
  eapply selected_names_are_keys. exact H.
Qed.

(** The command line [--procedures " null,GetAttr"]. *)
Lemma registration_never_fails_witness :
  let names := [str_of_string "NULL"; str_of_string "GETATTR"] in
  procedure_names ascii_strip ascii_upper false
    (Some (str_of_string " null,GetAttr")) = Done names /\
  exists requests : list Request,
    register names = Done requests /\
    List.length requests = List.length names /\
    Forall (fun r => exists bs, render r = Ok bs) requests.
Proof.
  cbv zeta.
  assert (H : procedure_names ascii_strip ascii_upper false
                (Some (str_of_string " null,GetAttr"))
              = Done [str_of_string "NULL"; str_of_string "GETATTR"])
    by (vm_compute; reflexivity).
  split; [exact H|].
  exact (registration_never_fails _ _ _ _ _ H).
Defined.

(** X20: how the procedures are chosen.  [--all-procedures] wins over
    [--procedures] and selects every key of [PROCEDURES]; with neither, or
    with an empty [--procedures], the seven defaults are selected.  A
    non-empty [--procedures] is split at commas and each piece stripped and
    upper-cased: the result is selected when every piece is a key, and
    otherwise the run ends with the first piece, in order, that is not. *)
Theorem procedure_selection (strip upper : str -> str) :
  (forall procedures,
      procedure_names strip upper true procedures = Done keys) /\
  procedure_names strip upper false None = Done DEFAULT_PROCEDURES /\
  procedure_names strip upper false (Some []) = Done DEFAULT_PROCEDURES /\
  (forall (c : Z) (p : str),
      let names := List.map (fun x => upper (strip x)) (split_on 44 (c :: p)) in
      (Forall (fun n => is_key n = true) names /\
       procedure_names strip upper false (Some (c :: p)) = Done names)
      \/
      (exists pre bad post,
          names = pre ++ bad :: post /\
          Forall (fun n => is_key n = true) pre /\
          is_key bad = false /\
          lookup bad PROCEDURES = None /\
          procedure_names strip upper false (Some (c :: p))
          = UnknownProcedure bad)).
Proof.
  split; [reflexivity|]. split; [reflexivity|]. split; [reflexivity|].
  intros c p. cbv zeta. unfold procedure_names. cbv zeta.
  fold (normalize strip upper (c :: p)).
  destruct (first_unknown (normalize strip upper (c :: p))) as [bad|] eqn:Hf.
  - right. destruct (first_unknown_some _ _ Hf) as [pre [post [Hn [Hp Hb]]]].
    exists pre, bad, post.
    split; [exact Hn|]. split; [exact Hp|]. split; [exact Hb|].
    split; [now apply lookup_not_key | reflexivity].
  - left. split; [now apply first_unknown_none | reflexivity].
Qed.

(** X21: [--all-procedures] registers exactly the requests that
    [get_all_nfs3_requests] returns, in the same order: the eighteen keys
    of [PROCEDURES] are pairwise distinct and each is bound to the builder
    of its procedure, called with its defaults.  The seven default
    procedures are among the keys. *)
Theorem all_procedures_is_get_all :
  exists requests : list Request,
    register keys = Done requests /\
    List.map Ok requests = get_all_nfs3_requests /\
    List.length requests = 18%nat /\
    NoDup keys /\
    List.map req_name requests
    = List.map (fun k => "NFS3-" ++ string_of_str k)%string keys /\
    forallb is_key DEFAULT_PROCEDURES = true.
Proof.
  eexists. split; [reflexivity|].
  split; [reflexivity|]. split; [reflexivity|].
  split.
  - apply (NoDup_map_inv string_of_str).
    apply distinct_NoDup. vm_compute. reflexivity.
  - split; [reflexivity|]. vm_compute. reflexivity.
Qed.

(* ===================================================================== *)
(** ** WRITE: the payload on the wire *)
(* ===================================================================== *)

(** X22: WRITE sends the handle, the offset, the count, the stability
    mode and then the payload as an XDR opaque of its own.  For every
    payload and every count, equal to the payload length or not, a
    receiver that reads the handle, skips the 16 bytes of offset, count
    and mode and reads one more opaque gets back exactly the payload, with
    nothing left over; the count it skipped is the one the caller gave. *)
Theorem nfs3_write_reads_back (handle_data : option bytes)
    (offset count stable : Z) (data : bytes) :
  fits 8 offset -> fits 4 count -> fits 4 stable ->
  len (effective_handle handle_data) + len data < 2 ^ 30 ->
  exists (r : Request) (bs tail : bytes),
    nfs3_write handle_data offset count stable data = Ok r /\
    render r = Ok bs /\
    xdr_read_opaque (skipn 44 bs)
    = Some (effective_handle handle_data, tail) /\
    be_combine (firstn 8 tail) = offset /\
    be_combine (firstn 4 (skipn 8 tail)) = count /\
    be_combine (firstn 4 (skipn 12 tail)) = stable /\
    xdr_read_opaque (skipn 16 tail) = Some (data, []).
Proof.
  intros Ho Hc Hs Hlen.
  pose proof (len_nonneg (effective_handle handle_data)) as Hh0.
  pose proof (len_nonneg data) as Hd0.
  change (2 ^ 30) with 1073741824 in Hlen.
  assert (Hfh : fits 4 (len (effective_handle handle_data)))
    by (apply fits4_intro; lia).
  assert (Hfd : fits 4 (len data)) by (apply fits4_intro; lia).
  unfold nfs3_write. cbv zeta. unfold default_auth_type.
  destruct (render_rpc_call "NFS3-WRITE" PROG_NFS NFS_V3 NFSPROC3_WRITE
              default_xid
              [ fhandle3 "NFS3-WRITE_fhandle" handle_data;
                QWord "NFS3-WRITE_offset" offset BIG_ENDIAN (Some true);
                DWord "NFS3-WRITE_count" count BIG_ENDIAN (Some true);
                DWord "NFS3-WRITE_stable" stable BIG_ENDIAN (Some true);
                DWord "NFS3-WRITE_data_length" (len data) BIG_ENDIAN
                      (Some true);
                Bytes "NFS3-WRITE_data" (xdr_padded_bytes data)
                      (len (xdr_padded_bytes data)) (Some true) ]
              (xdr_opaque (effective_handle handle_data)
               ++ be_split 8 offset ++ be_split 4 count
               ++ be_split 4 stable ++ xdr_opaque data))
    as [r [Hr Hrender]]; try header_fits.
  - intros tbl. cbn [serialize_children].
    rewrite serialize_fhandle3 by exact Hfh. cbn [bind serialize].
    rewrite !encode_uint_fits by assumption. cbn [bind].
    rewrite app_nil_r. eexists. reflexivity.
  - intros tbl. cbn [resolve_children].
    rewrite resolve_fhandle3 by exact Hfh. cbn [bind resolve].
    rewrite !encode_uint_fits by assumption. cbn [bind].
    now rewrite app_nil_r.
  - apply body_length_bound.
    rewrite !len_app, !len_be_split.
    pose proof (xdr_opaque_bound (effective_handle handle_data)).
    pose proof (xdr_opaque_bound data).
    change (2 ^ 31) with 2147483648. lia.
  - exists r. eexists.
    exists (be_split 8 offset ++ be_split 4 count ++ be_split 4 stable
            ++ xdr_opaque data).
    split; [exact Hr|]. split; [exact Hrender|].
    split.
    { rewrite (app_assoc (be_split 4 _)), (app_assoc (_ ++ _)).
      rewrite skipn_length_app by reflexivity.
      now apply xdr_read_opaque_encoded. }
    split.
    { rewrite firstn_length_app by (now rewrite length_be_split).
      now apply be_combine_split. }
    split.
    { rewrite skipn_length_app by (now rewrite length_be_split).
      rewrite firstn_length_app by (now rewrite length_be_split).
      now apply be_combine_split. }
    split.
    { rewrite (app_assoc (be_split 8 _)).
      rewrite skipn_length_app
        by (now rewrite length_app, !length_be_split).
      rewrite firstn_length_app by (now rewrite length_be_split).
      now apply be_combine_split. }
    rewrite (app_assoc (be_split 8 _)), (app_assoc (_ ++ _)).
    rewrite skipn_length_app
      by (now rewrite !length_app, !length_be_split).
    rewrite <- (app_nil_r (xdr_opaque data)).
    now apply xdr_read_opaque_encoded.
Qed.

(** Count 10 for a payload of 7 bytes. *)
Lemma nfs3_write_reads_back_witness :
  let data := bytes_mul [Byte.x41] 7 in
  fits 8 0 /\ fits 4 10 /\ fits 4 FILE_SYNC /\
  len (effective_handle None) + len data < 2 ^ 30 /\
  exists (r : Request) (bs tail : bytes),
    nfs3_write None 0 10 FILE_SYNC data = Ok r /\
    render r = Ok bs /\
    xdr_read_opaque (skipn 44 bs) = Some (effective_handle None, tail) /\
    be_combine (firstn 8 tail) = 0 /\
    be_combine (firstn 4 (skipn 8 tail)) = 10 /\
    be_combine (firstn 4 (skipn 12 tail)) = FILE_SYNC /\
    xdr_read_opaque (skipn 16 tail) = Some (data, []).
Proof.
  cbv zeta.
  assert (H1 : fits 8 0) by (apply fits8_intro; lia).
  assert (H2 : fits 4 10) by (apply fits4_intro; lia).
  assert (H3 : fits 4 FILE_SYNC) by header_fits.
  assert (H4 : len (effective_handle None) + len (bytes_mul [Byte.x41] 7)
               < 2 ^ 30) by (vm_compute; reflexivity).
  repeat (split; [assumption|]).
  exact (nfs3_write_reads_back None 0 10 FILE_SYNC _ H1 H2 H3 H4).
Defined.
